(** * Bounded multipart upload ingestion (algernon, [UploadedFile])

    A shallow embedding of the upload subsystem of [src/repl.go]:
    [newUploadedFile], the accessors, [UploadedFile.write], the Lua
    bindings [uploadedfileSave] / [uploadedfileSaveIn] and the
    [UploadedFile] constructor registered by [exportUploadedFile]; and,
    beside it, of the REPL's [colorSplit] and [highlight] and of the
    positional arguments of [handleFlags].

    Conventions.
    - Go's [int] and [int64] are 64-bit two's complement integers, modelled
      as [Z] with the wrap-around written out ([wrap64]) wherever a value
      can actually leave the range.
    - Byte slices and buffer contents are [list byte]; memory is not
      bounded, so an allocation fails only on a negative length.
    - The pieces of the Go standard library the code calls ([strconv.Atoi],
      [path/filepath], [bytes.Buffer], [io.CopyN], [io.Copy], [os.Stat],
      [os.OpenFile]) are modelled in modules named after their packages,
      for a Unix host. *)

From Stdlib Require Import ZArith Lia List Ascii String Strings.Byte.
From stdpp Require Import base option list gmap strings pretty.

Local Open Scope string_scope.
Local Open Scope Z_scope.
Local Open Scope list_scope.

(** ** Machine integers *)

Definition MaxInt64 : Z := 2 ^ 63 - 1.
Definition MinInt64 : Z := - 2 ^ 63.
Definition MaxUint64 : Z := 2 ^ 64 - 1.

(** Two's complement wrap-around of a mathematical integer into [int64]. *)
Definition wrap64 (z : Z) : Z := (z + 2 ^ 63) mod 2 ^ 64 - 2 ^ 63.

Definition in_int64 (z : Z) : Prop := MinInt64 <= z <= MaxInt64.

(** Modelled from the spec: the constant [MiB] is declared in a file of the
    repository that is not under src/; the spec writes 5 MiB as
    5×1024×1024. *)
Definition MiB : Z := 1024 * 1024.

(** Upload limit, in bytes *)
Definition defaultUploadLimit : Z := 32 * MiB.

(** Memory usage while uploading *)
Definition defaultMemoryLimit : Z := 32 * MiB.

(** Chunk size when reading uploaded file *)
Definition chunkSize : Z := defaultMemoryLimit.

(** ** Errors

    Go's [error] values.  The three errors the subsystem builds itself with
    [fmt.Errorf] keep their arguments; [Error] below renders the message. *)

Inductive error : Type :=
| EOF                                            (* io.EOF *)
| ErrMissingFile                                 (* http.ErrMissingFile *)
| ErrSyntax (num : string)                       (* strconv: invalid syntax *)
| ErrRange (num : string)                        (* strconv: value out of range *)
| TooLargeDeclared (clientLength uploadLimit : Z)(* repl.go line 336 *)
| TooLargeStreamed (totalWritten uploadLimit : Z)(* repl.go line 361 *)
| FileExists (fullFilename : string)             (* repl.go line 443 *)
| Foreign (msg : string).                        (* an error of the environment:
                                                    multipart parser, network, disk *)

#[global] Instance error_eq_dec : EqDecision error.
Proof. solve_decision. Defined.

(** ** strconv *)

Module strconv.

Definition digit (c : ascii) : option Z :=
  let n := Z.of_N (N_of_ascii c) in
  if (48 <=? n) && (n <=? 57) then Some (n - 48) else None.

(** The digit loop of [ParseUint(s, 10, 64)]: an invalid byte is a syntax
    error, unless an overflow was met before it. *)
Inductive uresult := UOk (n : Z) | USyntax | URange.

Fixpoint parseDigits (s : string) (n : Z) : uresult :=
  match s with
  | EmptyString => UOk n
  | String c s' =>
      match digit c with
      | None => USyntax
      | Some v =>
          if MaxUint64 <? n * 10 + v then URange
          else parseDigits s' (n * 10 + v)
      end
  end.

Definition ParseUint (s : string) : uresult :=
  match s with
  | EmptyString => USyntax
  | _ => parseDigits s 0
  end.

(** [Atoi(s)] is [ParseInt(s, 10, 0)] converted to [int]: the value (0 on
    a syntax error, the nearest bound on a range error) and the error. *)
Definition Atoi (s : string) : Z * option error :=
  match s with
  | EmptyString => (0, Some (ErrSyntax s))
  | String c rest =>
      let neg := Ascii.eqb c "-" in
      let body := if Ascii.eqb c "+" || neg then rest else s in
      match ParseUint body with
      | USyntax => (0, Some (ErrSyntax s))
      | URange =>
          if neg then (MinInt64, Some (ErrRange s))
          else (MaxInt64, Some (ErrRange s))
      | UOk un =>
          if negb neg && (2 ^ 63 <=? un) then (MaxInt64, Some (ErrRange s))
          else if neg && (2 ^ 63 <? un) then (MinInt64, Some (ErrRange s))
          else (if neg then - un else un, None)
      end
  end.

End strconv.

(** ** path/filepath (Unix) *)

Module filepath.

Definition Separator : ascii := "/"%char.

Definition IsAbs (path : string) : bool :=
  match path with
  | String c _ => Ascii.eqb c Separator
  | EmptyString => false
  end.

(** The path elements between separators, empty ones included. *)
Fixpoint elements (cur : string) (path : string) : list string :=
  match path with
  | EmptyString => [cur]
  | String c p' =>
      if Ascii.eqb c Separator then cur :: elements "" p'
      else elements (cur +:+ String c "") p'
  end.

(** One element of the scan of [Clean], on the stack of elements kept so
    far (innermost first). *)
Definition cleanStep (rooted : bool) (out : list string) (e : string)
  : list string :=
  if String.eqb e "" then out
  else if String.eqb e "." then out
  else if String.eqb e ".." then
    match out with
    | top :: below =>
        if String.eqb top ".." then ".." :: out else below
    | [] => if rooted then [] else [".."]
    end
  else e :: out.

Fixpoint joinWith (sep : string) (l : list string) : string :=
  match l with
  | [] => ""
  | [x] => x
  | x :: l' => x +:+ sep +:+ joinWith sep l'
  end.

Definition Clean (path : string) : string :=
  match path with
  | EmptyString => "."
  | _ =>
      let rooted := IsAbs path in
      let out := fold_left (cleanStep rooted) (elements "" path) [] in
      let body := joinWith "/" (rev out) in
      if rooted then "/" +:+ body
      else if String.eqb body "" then "." else body
  end.

(** [Join] cleans the elements joined from the first non-empty one on;
    with no non-empty element the result is the empty string. *)
Fixpoint Join (elem : list string) : string :=
  match elem with
  | [] => ""
  | e :: rest =>
      if String.eqb e "" then Join rest
      else Clean (joinWith "/" elem)
  end.

End filepath.

(** ** Byte sources, bytes.Buffer, io *)

(** A byte source as the copy loop sees it ([multipart.File] is an
    [io.Reader]): the bytes it still delivers, and what it reports once they
    are exhausted, [None] for a clean end of data ([io.EOF]) and [Some e]
    for a read error. *)
Record Reader : Type := mkReader {
  pending : list byte;
  fault : option error
}.

Definition make (n : Z) : option (list byte) :=
  if n <? 0 then None                       (* panic: makeslice: len out of range *)
  else Some (replicate (Z.to_nat n) x00).

Module bytes.

(** A [bytes.Buffer] is modelled by its unread contents. *)
Abbreviation Buffer := (list byte).

(** [NewBuffer(buf)] uses [buf] as the initial contents. *)
Definition NewBuffer (buf : list byte) : Buffer := buf.

Definition Len (b : Buffer) : Z := Z.of_nat (length b).

Definition Write (b : Buffer) (p : list byte) : Buffer := b ++ p.

(** [Truncate(n)] keeps the first [n] unread bytes and panics when [n] is
    negative or larger than [Len]. *)
Definition Truncate (b : Buffer) (n : Z) : option Buffer :=
  if (n <? 0) || (Len b <? n) then None
  else Some (take (Z.to_nat n) b).

End bytes.

Module io.

(** The first [n] elements and the rest. *)
Fixpoint splitAt (n : Z) (l : list byte) : list byte * list byte :=
  match l with
  | [] => ([], [])
  | x :: l' =>
      if n <=? 0 then ([], l)
      else let '(a, b) := splitAt (n - 1) l' in (x :: a, b)
  end.

(** [CopyN(dst, src, n)]: the buffer and the source afterwards, the number
    of bytes written and the error; the error is nil exactly when [n]
    bytes were written. *)
Definition CopyN (dst : bytes.Buffer) (src : Reader) (n : Z)
  : bytes.Buffer * Reader * Z * option error :=
  let '(chunk, rest) := splitAt n (pending src) in
  let written := Z.of_nat (length chunk) in
  if written =? n then
    (bytes.Write dst chunk, mkReader rest (fault src), written, None)
  else
    (bytes.Write dst chunk, mkReader rest (fault src), written,
     Some (match fault src with Some e => e | None => EOF end)).

End io.

(** ** mime/multipart and net/http, as far as the code observes them *)

Module multipart.

(** The interface value [FormFile] returns. *)
Inductive File : Type :=
| nilFile                       (* the nil interface: no such form file *)
| nilOsFile                     (* a nil [*os.File]: opening the part failed *)
| openFile (r : Reader).

Record FileHeader : Type := mkFileHeader {
  Filename : string;
  Header : gmap string (list string);      (* textproto.MIMEHeader *)
  content : Reader + error                 (* what [Open] yields *)
}.

Definition Open (fh : FileHeader) : File * option error :=
  match content fh with
  | inl r => (openFile r, None)
  | inr e => (nilOsFile, Some e)
  end.

Record Form : Type := mkForm {
  Files : gmap string (list FileHeader)    (* Form.File *)
}.

End multipart.

Module http.

(** A request: its header, and the outcome of parsing its body as
    multipart form data (the error [ParseMultipartForm] returns, or the
    form it stores). *)
Record Request : Type := mkRequest {
  Header : gmap string (list string);
  body : error + multipart.Form
}.

Definition Get (h : gmap string (list string)) (key : string) : string :=
  match h !! key with
  | Some (v :: _) => v
  | _ => ""
  end.

(** [ParseMultipartForm] by its result.  What the parser does beside it
    is not modelled: file parts beyond [maxMemory] are kept in temporary
    files until the server removes them, and these files are not among
    [files] of the world below, so nothing proved here speaks about the
    temporary directory or about the room the parser takes on a device. *)
Definition ParseMultipartForm (r : Request) (maxMemory : Z) : option error :=
  match body r with
  | inl e => Some e
  | inr _ => None
  end.

Definition FormFile (r : Request) (key : string)
  : multipart.File * option multipart.FileHeader * option error :=
  match body r with
  | inl e => (multipart.nilFile, None, Some e)
  | inr form =>
      match multipart.Files form !! key with
      | Some (fh :: _) =>
          let '(f, err) := multipart.Open fh in (f, Some fh, err)
      | _ => (multipart.nilFile, None, Some ErrMissingFile)
      end
  end.

End http.

(** ** The world: file system, log, and the heap of buffers *)

Record World : Type := mkWorld {
  files : gmap string (list byte);      (* path -> contents *)
  denied : gset string;                 (* paths [os.OpenFile] cannot open or create *)
  space : nat;                          (* bytes the device still accepts *)
  logs : list string;                   (* lines written by [log.Error] *)
  heap : gmap positive (list byte)      (* the [*bytes.Buffer] objects *)
}.

(** How a call ends. *)
Inductive Outcome (A : Type) : Type :=
| Return (a : A)
| RuntimePanic (msg : string)           (* a Go run-time panic *)
| LuaRaise (msg : string)               (* [L.ArgError], [L.TypeError] *)
| Diverge.                              (* the fuel of a loop ran out *)
Arguments Return {A} a.
Arguments RuntimePanic {A} msg.
Arguments LuaRaise {A} msg.
Arguments Diverge {A}.

Definition M (A : Type) : Type := World -> Outcome A * World.

Definition ret {A} (a : A) : M A := fun w => (Return a, w).

Definition bind {A B} (m : M A) (k : A -> M B) : M B :=
  fun w =>
    match m w with
    | (Return a, w') => k a w'
    | (RuntimePanic msg, w') => (RuntimePanic msg, w')
    | (LuaRaise msg, w') => (LuaRaise msg, w')
    | (Diverge, w') => (Diverge, w')
    end.

Declare Scope go_scope.
Delimit Scope go_scope with go.
Notation "x <- m ;; k" := (bind m (fun x => k))
  (at level 100, m at next level, right associativity) : go_scope.
Notation "m ;;; k" := (bind m (fun _ => k))
  (at level 100, right associativity) : go_scope.
Local Open Scope go_scope.

Definition panic {A} (msg : string) : M A := fun w => (RuntimePanic msg, w).
Definition raise {A} (msg : string) : M A := fun w => (LuaRaise msg, w).
Definition diverge {A} : M A := fun w => (Diverge, w).

Definition log_Error (line : string) : M unit :=
  fun w => (Return tt,
            mkWorld (files w) (denied w) (space w) (logs w ++ [line]) (heap w)).

(** [new(bytes.Buffer)]-style allocation of a buffer object. *)
Definition alloc (b : bytes.Buffer) : M positive :=
  fun w =>
    let p := fresh (dom (heap w)) in
    (Return p,
     mkWorld (files w) (denied w) (space w) (logs w) (<[p := b]> (heap w))).

Definition load (p : positive) : M bytes.Buffer :=
  fun w =>
    match heap w !! p with
    | Some b => (Return b, w)
    | None => (RuntimePanic "invalid memory address or nil pointer dereference", w)
    end.

Definition store (p : positive) (b : bytes.Buffer) : M unit :=
  fun w => (Return tt,
            mkWorld (files w) (denied w) (space w) (logs w) (<[p := b]> (heap w))).


(** ** os: the file system calls of [write] *)

Module os.

(** [os.Stat(name)]: the error is nil exactly when the path exists. *)
Definition Stat (name : string) : M (option error) :=
  fun w =>
    match files w !! name with
    | Some _ => (Return None, w)
    | None => (Return (Some (Foreign "no such file or directory")), w)
    end.

(** [os.OpenFile(name, O_WRONLY|O_CREATE, perm)]: the file is created empty
    when it is missing and left as it is otherwise (no O_TRUNC, no O_EXCL).
    The handle is the path; on failure the handle is nil. *)
Definition OpenFile (name : string) : M (option string * option error) :=
  fun w =>
    if decide (name ∈ denied w) then
      (Return (None, Some (Foreign "permission denied")), w)
    else
      match files w !! name with
      | Some _ => (Return (Some name, None), w)
      | None =>
          (Return (Some name, None),
           mkWorld (<[name := []]> (files w)) (denied w) (space w) (logs w) (heap w))
      end.

(** [f.Write(b)] on a handle at offset 0: as many bytes as the device
    accepts replace the head of the file; a short write is an error. *)
Definition Write (f : string) (b : list byte) : M (nat * option error) :=
  fun w =>
    let m := Nat.min (length b) (space w) in
    let old := default [] (files w !! f) in
    let w' := mkWorld (<[f := take m b ++ drop m old]> (files w)) (denied w)
                      (space w - m)%nat (logs w) (heap w) in
    (Return (m, if (m <? length b)%nat
                then Some (Foreign "no space left on device") else None), w').

End os.

(** [io.Copy(f, buf)] with a [*bytes.Buffer] source is [buf.WriteTo(f)]: one
    [Write] of the unread bytes; the bytes written are consumed from the
    buffer, and after a complete write the buffer is empty. *)
Definition Copy (f : string) (buf : positive) : M (option error) :=
  b <- load buf ;;
  match b with
  | [] => ret None
  | _ :: _ =>
      r <- os.Write f b ;;
      store buf (drop (fst r) b) ;;;
      ret (snd r)
  end.

(** ** UploadedFile *)

(** UploadedFile represents a file that has been uploaded but not yet been
    written to file.  [buf] is the pointer to its [bytes.Buffer]. *)
Record UploadedFile : Type := mkUploadedFile {
  req : http.Request;
  scriptdir : string;
  header : gmap string (list string);
  filename : string;
  buf : positive
}.

(** The variables of the chunk loop of [newUploadedFile]. *)
Record LoopState : Type := mkLoop {
  ls_buf : bytes.Buffer;
  ls_file : Reader;
  ls_totalWritten : Z;
  ls_i : Z
}.

(** The loop [for i = 0; i < int64(buf.Len()); i += chunkSize] (lines
    356-370), for a chunk size [chunk].  The result is the state at the exit
    and the error of an aborting exit; [None] when the fuel runs out.  The
    counters stay below the buffer length plus one chunk, so they do not
    wrap. *)
Fixpoint copyLoop (chunk : Z) (fuel : nat) (uploadLimit : Z) (s : LoopState)
  : option (LoopState * option error) :=
  match fuel with
  | O => None
  | S fuel' =>
      if ls_i s <? bytes.Len (ls_buf s) then
        let '(buf', file', writtenBytes, err) :=
          io.CopyN (ls_buf s) (ls_file s) chunk in
        let totalWritten := ls_totalWritten s + writtenBytes in
        let s' := mkLoop buf' file' totalWritten (ls_i s) in
        if totalWritten >? uploadLimit then
          (* File too large *)
          Some (s', Some (TooLargeStreamed totalWritten uploadLimit))
        else if (writtenBytes <? chunk) || bool_decide (err = Some EOF) then
          (* Done writing *)
          Some (s', None)
        else
          match err with
          | Some e => Some (s', Some e)       (* Error when copying data *)
          | None =>
              copyLoop chunk fuel' uploadLimit
                (mkLoop buf' file' totalWritten (ls_i s + chunk))
          end
      else Some (s, None)
  end.

(** Lines 349-376: allocation of the buffer, the chunk loop, truncation. *)
Definition receive (req : http.Request) (scriptdir : string)
    (handler : multipart.FileHeader) (file : Reader) (uploadLimit : Z)
  : M (UploadedFile + error) :=
  match make uploadLimit with
  | None => panic "makeslice: len out of range"
  | Some data =>
      let buf := bytes.NewBuffer data in
      match copyLoop chunkSize (S (length (pending file))) uploadLimit
                     (mkLoop buf file 0 0) with
      | None => diverge
      | Some (_, Some e) => ret (inr e)
      | Some (s, None) =>
          (* trunkate the buffer to the uploaded size *)
          match bytes.Truncate (ls_buf s) (ls_totalWritten s) with
          | None => panic "bytes.Buffer: truncation out of range"
          | Some b =>
              p <- alloc b ;;
              ret (inl (mkUploadedFile req scriptdir
                          (multipart.Header handler)
                          (multipart.Filename handler) p))
          end
      end
  end.

(** Lines 339-376: parsing the form, locating the field, then [receive]. *)
Definition ingest (req : http.Request) (scriptdir formID : string)
    (uploadLimit : Z) : M (UploadedFile + error) :=
  match http.ParseMultipartForm req defaultMemoryLimit with
  | Some e => ret (inr e)
  | None =>
      let '(file, handler, err) := http.FormFile req formID in
      match file with
      | multipart.nilFile =>
          (* defer file.Close() on the nil interface *)
          panic "invalid memory address or nil pointer dereference"
      | _ =>
          match err with
          | Some e => ret (inr e)
          | None =>
              match file, handler with
              | multipart.openFile r, Some fh =>
                  receive req scriptdir fh r uploadLimit
              | _, _ =>
                  panic "invalid memory address or nil pointer dereference"
              end
          end
      end
  end.

(** Receives an uploadeded file.  uploadLimit is in bytes. *)
Definition newUploadedFile (req : http.Request) (scriptdir formID : string)
    (uploadLimit : Z) : M (UploadedFile + error) :=
  let contentLength := http.Get (http.Header req) "Content-Length" in
  let '(clientLengthTotal, err) := strconv.Atoi contentLength in
  match err with
  | Some _ => log_Error ("Invalid Content-Length: " +:+ contentLength)
  | None => ret tt
  end ;;;
  (* Remove the extra 20 bytes and convert to int64 *)
  let clientLength := wrap64 (clientLengthTotal - 20) in
  if clientLength >? uploadLimit then
    ret (inr (TooLargeDeclared clientLength uploadLimit))
  else ingest req scriptdir formID uploadLimit.

(** ** The Lua bindings *)

Inductive LValue : Type :=
| LNil
| LBool (b : bool)
| LNumber (n : Z)
| LString (s : string)
| LUserData (v : UploadedFile).

(** The types of Lua values ([lua.LValueType]) and their names. *)
Inductive LValueType : Type :=
| LTNil | LTBool | LTNumber | LTString | LTFunction | LTUserData
| LTThread | LTTable | LTChannel.

Definition typeName (t : LValueType) : string :=
  match t with
  | LTNil => "nil"
  | LTBool => "boolean"
  | LTNumber => "number"
  | LTString => "string"
  | LTFunction => "function"
  | LTUserData => "userdata"
  | LTThread => "thread"
  | LTTable => "table"
  | LTChannel => "channel"
  end.

(** The Lua state of a call, by what the bindings read from it: the number
    of arguments, the string and integer conversions of an argument, the
    [*UploadedFile] inside a userdata argument, and the type of an
    argument.  [UserData L n = Some u] says that argument [n] is a userdata
    whose value is [u]; when it is [None], [ArgType L n] tells a userdata
    with another value from an argument of another type. *)
Record LState : Type := mkLState {
  GetTop : Z;
  ToString : Z -> string;
  ToInt : Z -> Z;
  UserData : Z -> option UploadedFile;
  ArgType : Z -> LValueType
}.

(** [L.CheckUserData(n)] followed by the type assertion on [ud.Value]: the
    [*UploadedFile] of a userdata that holds one, [None] for a userdata
    with another value; an argument that is no userdata raises the type
    error.  Of a message [bad argument #n to f (...)] the text between
    the parentheses is kept. *)
Definition CheckUserData (L : LState) (n : Z) : M (option UploadedFile) :=
  match UserData L n with
  | Some uploadedfile => ret (Some uploadedfile)
  | None =>
      match ArgType L n with
      | LTUserData => ret None
      | t => raise ("userdata expected, got " +:+ typeName t)
      end
  end.

(** Get the first argument, "self", and cast it from userdata to an
    UploadedFile. *)
Definition checkUploadedFile (L : LState) : M UploadedFile :=
  ud <- CheckUserData L 1 ;;
  match ud with
  | Some uploadedfile => ret uploadedfile
  | None => raise "UploadedFile expected"
  end.

(** Create a new Upload file *)
Definition constructUploadedFile (req : http.Request)
    (scriptdir formID : string) (uploadLimit : Z) : M (LValue + error) :=
  r <- newUploadedFile req scriptdir formID uploadLimit ;;
  match r with
  | inr err => ret (inr err)
  | inl uploadedfile => ret (inl (LUserData uploadedfile))
  end.

(** String representation *)
Definition uploadedfileToString (L : LState) : M (list LValue) :=
  ret [LString "Uploaded file"].

(** File name *)
Definition uploadedfileName (L : LState) : M (list LValue) :=
  ulf <- checkUploadedFile L ;;
  ret [LString (filename ulf)].

(** File size *)
Definition uploadedfileSize (L : LState) : M (list LValue) :=
  ulf <- checkUploadedFile L ;;
  b <- load (buf ulf) ;;
  ret [LNumber (bytes.Len b)].

(** Mime type *)
Definition uploadedfileMimeType (L : LState) : M (list LValue) :=
  ulf <- checkUploadedFile L ;;
  let contentType :=
    match header ulf !! "Content-Type" with
    | Some (c :: _) => c
    | _ => ""
    end in
  ret [LString contentType].

Section Bindings.

(** [describeBytes] is a helper of the repository declared outside src/; it
    only renders a byte count inside the message of the precheck error. *)
Variable describeBytes : Z -> string.

Definition quote (s : string) : string :=
  String (ascii_of_nat 34) s +:+ String (ascii_of_nat 34) "".

(** The message of an error ([err.Error()]).  The file name of
    [FileExists] is part of the format string of [fmt.Errorf] in the
    source; names are taken to hold no formatting verb. *)
Definition Error (e : error) : string :=
  match e with
  | EOF => "EOF"
  | ErrMissingFile => "http: no such file"
  | ErrSyntax num => "strconv.ParseInt: parsing " +:+ quote num +:+ ": invalid syntax"
  | ErrRange num => "strconv.ParseInt: parsing " +:+ quote num +:+ ": value out of range"
  | TooLargeDeclared clientLength uploadLimit =>
      "Uploaded file was too large: " +:+ describeBytes clientLength
      +:+ " according to Content-Length (current limit is "
      +:+ describeBytes uploadLimit +:+ ")"
  | TooLargeStreamed totalWritten uploadLimit =>
      "Uploaded file was too large: " +:+ pretty totalWritten
      +:+ " bytes (limit is " +:+ pretty uploadLimit +:+ " bytes)"
  | FileExists fullFilename => "File exists: " +:+ fullFilename
  | Foreign msg => msg
  end.

(** Write the uploaded file to the given full filename.
    Does not overwrite files. *)
Definition write (ulf : UploadedFile) (fullFilename : string)
  : M (option error) :=
  (* Check if the file already exists *)
  st <- os.Stat fullFilename ;;
  match st with
  | None =>
      log_Error (fullFilename +:+ " already exists") ;;;
      ret (Some (FileExists fullFilename))
  | Some _ =>
      (* Write the uploaded file *)
      o <- os.OpenFile fullFilename ;;
      match o with
      | (_, Some err) =>
          log_Error ("Error when creating " +:+ fullFilename) ;;;
          ret (Some err)
      | (None, None) =>
          panic "invalid memory address or nil pointer dereference"
      | (Some f, None) =>
          r <- Copy f (buf ulf) ;;
          match r with
          | Some err =>
              log_Error ("Error when writing: " +:+ Error err) ;;;
              ret (Some err)
          | None => ret None
          end
      end
  end.

(** The full path [uploadedfileSave] writes to: the given filename is used
    instead of the default one, if given. *)
Definition saveFilename (ulf : UploadedFile) (givenFilename : string)
  : string :=
  let filename := if String.eqb givenFilename "" then filename ulf
                  else givenFilename in
  filepath.Join [scriptdir ulf; filename].

(** Save the file locally *)
Definition uploadedfileSave (L : LState) : M (list LValue) :=
  ulf <- checkUploadedFile L ;;
  let givenFilename := if GetTop L =? 2 then ToString L 2 else "" in
  let writeFilename := saveFilename ulf givenFilename in
  (* Write the file and return true if successful *)
  e <- write ulf writeFilename ;;
  ret [LBool (bool_decide (e = None))].

(** The full path [uploadedfileSaveIn] writes to. *)
Definition saveInFilename (ulf : UploadedFile) (givenDirectory : string)
  : string :=
  if filepath.IsAbs givenDirectory then
    filepath.Join [givenDirectory; filename ulf]
  else
    filepath.Join [scriptdir ulf; givenDirectory; filename ulf].

(** Save the file locally, to a given directory *)
Definition uploadedfileSaveIn (L : LState) : M (list LValue) :=
  ulf <- checkUploadedFile L ;;
  let givenDirectory := ToString L 2 in
  let writeFilename := saveInFilename ulf givenDirectory in
  e <- write ulf writeFilename ;;
  ret [LBool (bool_decide (e = None))].

(** The constructor [exportUploadedFile] registers as the Lua global
    [UploadedFile]: takes a form ID (string) and an optional file upload
    limit in MiB (number).  Returns the userdata and an empty string on
    success, nil and an error message on failure. *)
Definition UploadedFileConstructor (req : http.Request) (scriptdir : string)
    (L : LState) : M (list LValue) :=
  let formID := ToString L 1 in
  (if String.eqb formID "" then raise "form ID expected" else ret tt) ;;;
  let uploadLimit :=
    if GetTop L =? 2 then wrap64 (wrap64 (ToInt L 2) * MiB)
    else defaultUploadLimit in
  r <- constructUploadedFile req scriptdir formID uploadLimit ;;
  match r with
  | inr err =>
      log_Error (Error err) ;;;
      ret [LNil; LString (Error err)]
  | inl userdata => ret [userdata; LString ""]
  end.

End Bindings.

(** ** unicode/utf8 and strings, as far as the REPL code calls them *)

Module utf8.

(** Is the byte a continuation byte within [lo, hi]? *)
Definition within (lo hi : N) (c : ascii) : bool :=
  let b := N_of_ascii c in ((lo <=? b) && (b <=? hi))%N.

(** The size a leading byte announces, and the range accepted for the
    second byte; [None] for ASCII and for bytes that cannot lead. *)
Definition lead (c : ascii) : option (nat * N * N) :=
  let b := N_of_ascii c in
  if (b <? 194)%N then None                               (* 00..C1 *)
  else if (b <=? 223)%N then Some (2%nat, 128%N, 191%N)   (* C2..DF *)
  else if (b =? 224)%N then Some (3%nat, 160%N, 191%N)    (* E0 *)
  else if (b <=? 236)%N then Some (3%nat, 128%N, 191%N)   (* E1..EC *)
  else if (b =? 237)%N then Some (3%nat, 128%N, 159%N)    (* ED *)
  else if (b <=? 239)%N then Some (3%nat, 128%N, 191%N)   (* EE..EF *)
  else if (b =? 240)%N then Some (4%nat, 144%N, 191%N)    (* F0 *)
  else if (b <=? 243)%N then Some (4%nat, 128%N, 191%N)   (* F1..F3 *)
  else if (b =? 244)%N then Some (4%nat, 128%N, 143%N)    (* F4 *)
  else None.                                              (* F5..FF *)

(** The width in bytes of the first rune ([DecodeRuneInString]): an invalid
    or truncated encoding has width 1; the empty string has width 0. *)
Definition width (s : string) : nat :=
  match s with
  | EmptyString => 0%nat
  | String c0 rest =>
      match lead c0 with
      | None => 1%nat
      | Some (sz, lo, hi) =>
          match rest with
          | String c1 rest1 =>
              if negb (within lo hi c1) then 1%nat
              else if (sz <=? 2)%nat then 2%nat
              else match rest1 with
                   | String c2 rest2 =>
                       if negb (within 128 191 c2) then 1%nat
                       else if (sz <=? 3)%nat then 3%nat
                       else match rest2 with
                            | String c3 _ =>
                                if negb (within 128 191 c3) then 1%nat
                                else 4%nat
                            | EmptyString => 1%nat
                            end
                   | EmptyString => 1%nat
                   end
          | EmptyString => 1%nat
          end
      end
  end.

End utf8.

Module strings.

(** [s[:n]] and [s[n:]], for [n] up to the length. *)
Fixpoint before (n : nat) (s : string) : string :=
  match n, s with
  | S n', String c s' => String c (before n' s')
  | _, _ => EmptyString
  end.

Fixpoint after (n : nat) (s : string) : string :=
  match n, s with
  | S n', String _ s' => after n' s'
  | _, _ => s
  end.

Fixpoint HasPrefix (s prefix : string) : bool :=
  match prefix with
  | EmptyString => true
  | String p prefix' =>
      match s with
      | String c s' => Ascii.eqb c p && HasPrefix s' prefix'
      | EmptyString => false
      end
  end.

(** [Index(s, sep)]: the index of the first instance of [sep] in [s];
    [None] stands for -1. *)
Fixpoint Index (s sep : string) : option nat :=
  if HasPrefix s sep then Some 0%nat
  else match s with
       | EmptyString => None
       | String _ s' => option_map S (Index s' sep)
       end.

Definition Contains (s substr : string) : bool :=
  match Index s substr with Some _ => true | None => false end.

(** [explode(s, 2)]: the first rune and the rest, as far as there are
    runes.  An invalid byte is a field of its own, as in the Go releases
    since 1.10 (earlier ones put U+FFFD in its place); only a split on the
    empty separator comes here. *)
Definition explode2 (s : string) : list string :=
  match s with
  | EmptyString => []
  | _ =>
      let w := utf8.width s in
      if (String.length s <=? w)%nat then [s]
      else [before w s; after w s]
  end.

(** [SplitN(s, sep, 2)] *)
Definition SplitN2 (s sep : string) : list string :=
  match sep with
  | EmptyString => explode2 s
  | _ =>
      match Index s sep with
      | Some m => [before m s; after (m + String.length sep) s]
      | None => [s]
      end
  end.

(** [Replace(s, old, new, -1)] for a non-empty [old]: the instances are
    found from left to right and do not overlap; [skip] counts the bytes
    of the instance just replaced that are still to be passed over. *)
Fixpoint replaceFrom (skip : nat) (s old new : string) : string :=
  match s with
  | EmptyString => EmptyString
  | String c s' =>
      match skip with
      | S k => replaceFrom k s' old new
      | O =>
          if HasPrefix s old
          then new +:+ replaceFrom (String.length old - 1) s' old new
          else String c (replaceFrom 0 s' old new)
      end
  end.

(** [Replace(s, "", new, -1)]: [new] before every rune and at the end. *)
Fixpoint interleave (skip : nat) (s new : string) : string :=
  match s with
  | EmptyString => new
  | String c s' =>
      match skip with
      | S k => String c (interleave k s' new)
      | O => new +:+ String c (interleave (utf8.width s - 1) s' new)
      end
  end.

Definition Replace (s old new : string) : string :=
  match old with
  | EmptyString => interleave 0 s new
  | _ => replaceFrom 0 s old new
  end.

End strings.

(** ** The REPL's syntax highlighting *)

(** The colouring methods of [term.TextOutput] that [highlight] calls. *)
Record TextOutput : Type := mkTextOutput {
  DarkGray : string -> string;
  LightGreen : string -> string;
  DarkRed : string -> string;
  LightBlue : string -> string;
  LightYellow : string -> string;
  LightCyan : string -> string
}.

(** The element of a slice at an index; [None] is the index-out-of-range
    panic. *)
Definition index (fields : list string) (i : nat) : option string :=
  fields !! i.

(** Split the given line in two parts, and color the parts.  A colour
    function may be nil ([None]); the result [None] is a run-time panic
    (an index out of range, or a call of a nil function). *)
Definition colorSplit (line sep : string)
    (colorFunc1 colorFuncSep colorFunc2 : option (string -> string))
    (reverse : bool) : option (string * string) :=
  if strings.Contains line sep then
    let fields := strings.SplitN2 line sep in
    f0 ← index fields 0;
    let s1 := match colorFunc1 with
              | Some colour => colour f0
              | None => f0
              end in
    s2 ← match colorFunc2 with
         | Some colour2 =>
             colourSep ← colorFuncSep;
             f1 ← index fields 1;
             Some (colourSep sep +:+ colour2 f1)
         | None =>
             f1 ← index fields 1;
             Some (sep +:+ f1)
         end;
    Some (s1, s2)
  else if reverse then Some ("", line)
  else Some (line, "").

(** Syntax highlight the given line *)
Definition highlight (o : TextOutput) (line : string) : option string :=
  let unprocessed := line in
  '(unprocessed, comment) ←
    colorSplit unprocessed "//" None (Some (DarkGray o)) (Some (DarkGray o)) false;
  '(module, unprocessed) ←
    colorSplit unprocessed ":" (Some (LightGreen o)) (Some (DarkRed o)) None true;
  '(function, unprocessed) ←
    (if negb (String.eqb unprocessed "") && strings.Contains unprocessed "("
     then
       let fields := strings.SplitN2 unprocessed "(" in
       f0 ← index fields 0;
       f1 ← index fields 1;
       (* Green function names *)
       Some (LightGreen o f0, "(" +:+ f1)
     else Some ("", unprocessed));
  '(unprocessed, typed) ←
    colorSplit unprocessed "->" None (Some (LightBlue o)) (Some (DarkRed o)) false;
  let unprocessed := strings.Replace unprocessed "string" (LightBlue o "string") in
  let unprocessed := strings.Replace unprocessed "number" (LightYellow o "number") in
  let unprocessed := strings.Replace unprocessed "function" (LightCyan o "function") in
  Some (module +:+ function +:+ unprocessed +:+ typed +:+ comment).

(** ** Command line flags *)

(** The package-level configuration variables. *)
Record Config : Type := mkConfig {
  SERVER_CONFIGURATION_FILENAMES : list string;
  SERVER_DIR : string;
  SERVER_ADDR : string;
  SERVER_CERT : string;
  SERVER_KEY : string;
  SERVER_CONF_SCRIPT : string;
  SERVER_HTTP2_LOG : string;
  REDIS_ADDR : string;
  REDIS_DB : Z
}.

Definition default_server_colon_port : string := ":3000".
Definition default_redis_colon_port : string := ":6379".

(** The variables once the flags are registered (lines 607-621), on
    Windows or elsewhere: every [flag.StringVar] and [flag.IntVar] stores
    its default. *)
Definition registerFlags (windows : bool) (g : Config) : Config :=
  let host := if windows then "localhost" else "" in
  mkConfig (SERVER_CONFIGURATION_FILENAMES g)
    "." (host +:+ default_server_colon_port) "cert.pem" "key.pem"
    "server.lua" "/dev/null" (host +:+ default_redis_colon_port) 0.

(** [handleFlags] from the return of [flag.Parse()] on (lines 625-651):
    [g] holds the variables as the parser left them and [Args] is
    [flag.Args()], the arguments that are not flags. *)
Definition handleFlags (Args : list string) (g : Config) : Config :=
  (* For backwards compatibility with earlier versions of algernon *)
  let dir := match Args !! 0%nat with Some a => a | None => SERVER_DIR g end in
  let addr := match Args !! 1%nat with Some a => a | None => SERVER_ADDR g end in
  let cert := match Args !! 2%nat with Some a => a | None => SERVER_CERT g end in
  let key := match Args !! 3%nat with Some a => a | None => SERVER_KEY g end in
  let redis := match Args !! 4%nat with Some a => a | None => REDIS_ADDR g end in
  let db :=
    match Args !! 5%nat with
    | Some a =>
        (* Convert the dbindex from string to int *)
        let '(dbindex, err) := strconv.Atoi a in
        match err with
        | Some _ => dbindex
        | None => REDIS_DB g
        end
    | None => REDIS_DB g
    end in
  (* Add the SERVER_CONF_SCRIPT to the list of configuration scripts to be
     read and executed *)
  mkConfig (SERVER_CONFIGURATION_FILENAMES g ++ [SERVER_CONF_SCRIPT g])
    dir addr cert key (SERVER_CONF_SCRIPT g) (SERVER_HTTP2_LOG g) redis db.

(** ** Vocabulary of the statements *)

(** The two errors that report an upload over the limit. *)
Definition isTooLarge (e : error) : bool :=
  match e with
  | TooLargeDeclared _ _ | TooLargeStreamed _ _ => true
  | _ => false
  end.

(** The world after one more line in the log. *)
Definition logged (line : string) (w : World) : World :=
  mkWorld (files w) (denied w) (space w) (logs w ++ [line]) (heap w).

(** The declared length after the precheck's adjustment (line 333). *)
Definition clientLength (req : http.Request) : Z :=
  wrap64 ((strconv.Atoi (http.Get (http.Header req) "Content-Length")).1 - 20).

(** The limit in bytes that the constructor passes on (lines 528-531). *)
Definition constructorLimit (L : LState) : Z :=
  if GetTop L =? 2 then wrap64 (wrap64 (ToInt L 2) * MiB)
  else defaultUploadLimit.

(** A colour function that is nil or returns its text as it is. *)
Definition plainColour (f : option (string -> string)) : Prop :=
  forall g, f = Some g -> forall s, g s = s.

(** ** Sample inputs *)

Definition emptyWorld : World := mkWorld ∅ ∅ 4096 [] ∅.

(** A form part named [a.txt] whose source delivers [d] and then ends with
    [flt]. *)
Definition samplePart (d : list byte) (flt : option error)
  : multipart.FileHeader :=
  multipart.mkFileHeader "a.txt" {[ "Content-Type" := ["text/plain"] ]}
    (inl (mkReader d flt)).

(** A request with the given Content-Length header (if any) and one form
    file, under the field name [file]. *)
Definition sampleRequest (contentLength : option string) (d : list byte)
    (flt : option error) : http.Request :=
  http.mkRequest
    (match contentLength with
     | Some v => {[ "Content-Length" := [v] ]}
     | None => ∅
     end)
    (inr (multipart.mkForm {[ "file" := [samplePart d flt] ]})).

(** The arguments of a Lua call: [n] arguments, the second one read as the
    string [s2] and the integer [i2], the first one holding [self], or
    being the string [file] when there is no [self]. *)
Definition sampleCall (n : Z) (s2 : string) (i2 : Z)
    (self : option UploadedFile) : LState :=
  mkLState n (fun k => if k =? 1 then "file" else s2) (fun _ => i2)
    (fun k => if k =? 1 then self else None)
    (fun k => if k =? 1 then match self with
                             | Some _ => LTUserData
                             | None => LTString
                             end
              else if n <? k then LTNil
              else if String.eqb s2 "" then LTNumber else LTString).

(** A Lua call without arguments: every argument reads as the empty
    string, as 0 and as no userdata. *)
Definition sampleEmptyCall : LState :=
  mkLState 0 (fun _ => "") (fun _ => 0) (fun _ => None) (fun _ => LTNil).

(** A method call on a userdata that holds something else than an
    UploadedFile. *)
Definition sampleForeignCall : LState :=
  mkLState 1 (fun _ => "") (fun _ => 0) (fun _ => None)
    (fun k => if k =? 1 then LTUserData else LTNil).

Definition sampleDescribe (n : Z) : string := pretty n +:+ " bytes".

(** An artifact named [a.txt] under the script directory [/srv], whose
    buffer is object 1, and a world where that buffer holds two bytes. *)
Definition sampleArtifact : UploadedFile :=
  mkUploadedFile (sampleRequest None [] None) "/srv" ∅ "a.txt" 1%positive.

Definition sampleStore : World :=
  mkWorld ∅ ∅ 4096 [] {[ 1%positive := ["A"; "B"]%byte ]}.

(** The artifact and the world that constructing from the one-byte sample
    request under a limit of 4 bytes leaves. *)
Definition sampleReceived : UploadedFile :=
  mkUploadedFile (sampleRequest None ["A"]%byte None) "/srv"
    {[ "Content-Type" := ["text/plain"] ]} "a.txt" 1%positive.

Definition sampleAfter : World :=
  mkWorld ∅ ∅ 4096 ["Invalid Content-Length: "]
    {[ 1%positive := ["000"]%byte ]}.

(** A request whose body is not multipart form data. *)
Definition sampleBadRequest : http.Request :=
  http.mkRequest ∅ (inl (Foreign "request Content-Type isn't multipart/form-data")).

(** A body of one byte more than 1 MiB. *)
Definition sampleBigBody : list byte :=
  replicate (Z.to_nat (MiB + 1)) "A"%byte.

(** The sample store with a file at [/srv/a.txt], and with room for one
    byte only. *)
Definition sampleOccupied : World :=
  mkWorld {[ "/srv/a.txt" := ["Z"]%byte ]} ∅ 4096 []
    {[ 1%positive := ["A"; "B"]%byte ]}.

Definition sampleFullStore : World :=
  mkWorld ∅ ∅ 1 [] {[ 1%positive := ["A"; "B"]%byte ]}.

(** A terminal with colours off. *)
Definition sampleOutput : TextOutput :=
  mkTextOutput id id id id id id.

(** The variables as declared (lines 565-575) with the flag defaults
    stored, and the same after the flags [-dir /www -redis :7000]. *)
Definition sampleConfig : Config :=
  registerFlags false
    (mkConfig ["/etc/algernon/server.lua"] "" "" "" "" "" "" "" 0).

Definition sampleFlagged : Config :=
  mkConfig (SERVER_CONFIGURATION_FILENAMES sampleConfig)
    "/www" (SERVER_ADDR sampleConfig) (SERVER_CERT sampleConfig)
    (SERVER_KEY sampleConfig) (SERVER_CONF_SCRIPT sampleConfig)
    (SERVER_HTTP2_LOG sampleConfig) ":7000" (REDIS_DB sampleConfig).

(** * Properties *)

(** ** Standard library models on examples *)

Example Atoi_ex1 : strconv.Atoi "1024" = (1024, None).
Proof. reflexivity. Qed.
Example Atoi_ex2 : strconv.Atoi "" = (0, Some (ErrSyntax "")).
Proof. reflexivity. Qed.
Example Atoi_ex3 : strconv.Atoi "-12" = (-12, None).
Proof. reflexivity. Qed.
Example Atoi_ex4 :
  strconv.Atoi "99999999999999999999" = (MaxInt64, Some (ErrRange "99999999999999999999")).
Proof. reflexivity. Qed.
Example Atoi_ex5 : strconv.Atoi "12a" = (0, Some (ErrSyntax "12a")).
Proof. reflexivity. Qed.
Example Join_ex1 : filepath.Join ["/srv/www"; "up"; "a.txt"] = "/srv/www/up/a.txt".
Proof. reflexivity. Qed.
Example Join_ex2 : filepath.Join ["/srv/www/"; "../x//"; "./a.txt"] = "/srv/x/a.txt".
Proof. reflexivity. Qed.
Example Join_ex3 : filepath.Join [""; "a"; ""; "b"] = "a/b".
Proof. reflexivity. Qed.
Example Join_ex4 : filepath.Join ["../.."; "a"; ".."] = "../..".
Proof. reflexivity. Qed.
Example Clean_ex1 : filepath.Clean "/../a/./b/.." = "/a".
Proof. reflexivity. Qed.

(** ** The chunk loop *)

Lemma chunkSize_pos : 0 < chunkSize.
Proof. reflexivity. Qed.

Lemma Len_app (a b : list byte) :
  bytes.Len (a ++ b) = bytes.Len a + bytes.Len b.
Proof. unfold bytes.Len. rewrite length_app. lia. Qed.

Lemma splitAt_take_drop (l : list byte) :
  forall n, io.splitAt n l = (take (Z.to_nat n) l, drop (Z.to_nat n) l).
Proof.
  induction l as [|x l IH]; intros n; simpl.
  - by rewrite take_nil, drop_nil.
  - destruct (Z.leb_spec n 0) as [Hn|Hn].
    + by replace (Z.to_nat n) with O by lia.
    + rewrite IH. replace (Z.to_nat n) with (S (Z.to_nat (n - 1))) by lia.
      reflexivity.
Qed.

(** A source with fewer than [n] bytes left is drained, and its end is
    reported: [io.EOF] or its read error. *)
Lemma CopyN_short dst d flt n :
  bytes.Len d < n ->
  io.CopyN dst (mkReader d flt) n =
    (dst ++ d, mkReader [] flt, bytes.Len d,
     Some (match flt with Some e => e | None => EOF end)).
Proof.
  intros Hlt. unfold io.CopyN, bytes.Len in *. simpl.
  rewrite splitAt_take_drop.
  rewrite take_ge, drop_ge by lia.
  destruct (Z.eqb_spec (Z.of_nat (length d)) n); [lia|done].
Qed.

(** A source with at least [n] bytes left delivers exactly [n], with a nil
    error. *)
Lemma CopyN_full dst d flt n :
  0 <= n <= bytes.Len d ->
  io.CopyN dst (mkReader d flt) n =
    (dst ++ take (Z.to_nat n) d, mkReader (drop (Z.to_nat n) d) flt, n, None).
Proof.
  intros Hle. unfold io.CopyN, bytes.Len in *. simpl.
  rewrite splitAt_take_drop.
  rewrite length_take.
  replace (Z.of_nat (Z.to_nat n `min` length d)) with n by lia.
  by rewrite Z.eqb_refl.
Qed.

(** [CopyN] reports an error only together with a short count. *)
Lemma CopyN_error dst src n b r k e :
  0 <= n ->
  io.CopyN dst src n = (b, r, k, Some e) -> k < n.
Proof.
  intros Hn. unfold io.CopyN. rewrite splitAt_take_drop.
  destruct (Z.eqb_spec (Z.of_nat (length (take (Z.to_nat n) (pending src)))) n)
    as [|Hne]; [done|].
  intros [= <- <- <- <-]. rewrite length_take in *. lia.
Qed.

(** The loop on small chunks: two full chunks and a short one; a source one
    byte over the limit; a source that fails after three bytes. *)
Example copyLoop_ex1 :
  copyLoop 2 10 8 (mkLoop [x00] (mkReader ["A"; "B"; "C"; "D"; "E"]%byte None) 0 0)
  = Some (mkLoop [x00; "A"; "B"; "C"; "D"; "E"]%byte (mkReader [] None) 5 4, None).
Proof. reflexivity. Qed.
Example copyLoop_ex2 :
  copyLoop 2 10 4 (mkLoop [x00] (mkReader ["A"; "B"; "C"; "D"; "E"]%byte None) 0 0)
  = Some (mkLoop [x00; "A"; "B"; "C"; "D"; "E"]%byte (mkReader [] None) 5 4,
          Some (TooLargeStreamed 5 4)).
Proof. reflexivity. Qed.
Example copyLoop_ex3 :
  copyLoop 2 10 8
    (mkLoop [x00] (mkReader ["A"; "B"; "C"]%byte (Some (Foreign "reset"))) 0 0)
  = Some (mkLoop [x00; "A"; "B"; "C"]%byte (mkReader [] (Some (Foreign "reset"))) 3 2,
          None).
Proof. reflexivity. Qed.

Section Loop.

Variables (chunk uploadLimit : Z).
Hypothesis chunk_pos : 0 < chunk.

(** Within the limit: the loop ends normally, every byte of the source has
    been appended to the buffer.  The source's own end report, a read error
    included, is not looked at. *)
Lemma copyLoop_within fuel : forall b d flt tw,
  0 < uploadLimit ->
  (length d < fuel)%nat ->
  bytes.Len b = uploadLimit + tw ->
  0 <= tw ->
  tw + bytes.Len d <= uploadLimit ->
  exists i', copyLoop chunk fuel uploadLimit (mkLoop b (mkReader d flt) tw tw) =
    Some (mkLoop (b ++ d) (mkReader [] flt) (tw + bytes.Len d) i', None).
Proof.
  induction fuel as [|fuel IH]; intros b d flt tw Hlim Hfuel Hlen Htw Hfit;
    [lia|].
  simpl. destruct (Z.ltb_spec tw (bytes.Len b)); [|lia].
  destruct (Z.lt_ge_cases (bytes.Len d) chunk) as [Hshort|Hfull].
  - rewrite CopyN_short by done.
    destruct (Z.gtb_spec (tw + bytes.Len d) uploadLimit); [lia|].
    destruct (Z.ltb_spec (bytes.Len d) chunk); [|lia]. simpl. eauto.
  - rewrite CopyN_full by lia.
    destruct (Z.gtb_spec (tw + chunk) uploadLimit); [lia|].
    destruct (Z.ltb_spec chunk chunk); [lia|]. simpl.
    rewrite ?bool_decide_eq_false_2 by done.
    assert (Hd : bytes.Len (drop (Z.to_nat chunk) d) = bytes.Len d - chunk).
    { unfold bytes.Len in *. rewrite length_drop. lia. }
    destruct (IH (b ++ take (Z.to_nat chunk) d) (drop (Z.to_nat chunk) d)
                flt (tw + chunk)) as [i' Hi'].
    + done.
    + unfold bytes.Len in *. rewrite length_drop. lia.
    + rewrite Len_app. unfold bytes.Len in *. rewrite length_take. lia.
    + lia.
    + lia.
    + exists i'. rewrite Hi'. rewrite <- app_assoc, take_drop.
      do 3 f_equal. lia.
Qed.

(** Beyond the limit: the loop aborts with the too-large error. *)
Lemma copyLoop_beyond fuel : forall b d flt tw,
  0 < uploadLimit ->
  (length d < fuel)%nat ->
  bytes.Len b = uploadLimit + tw ->
  0 <= tw ->
  uploadLimit < tw + bytes.Len d ->
  exists s' n, copyLoop chunk fuel uploadLimit (mkLoop b (mkReader d flt) tw tw) =
    Some (s', Some (TooLargeStreamed n uploadLimit)) /\ uploadLimit < n.
Proof.
  induction fuel as [|fuel IH]; intros b d flt tw Hlim Hfuel Hlen Htw Hbig;
    [lia|].
  simpl. destruct (Z.ltb_spec tw (bytes.Len b)); [|lia].
  destruct (Z.lt_ge_cases (bytes.Len d) chunk) as [Hshort|Hfull].
  - rewrite CopyN_short by done.
    destruct (Z.gtb_spec (tw + bytes.Len d) uploadLimit); [|lia]. eauto.
  - rewrite CopyN_full by lia.
    destruct (Z.gtb_spec (tw + chunk) uploadLimit); [by eauto|].
    destruct (Z.ltb_spec chunk chunk); [lia|]. simpl.
    rewrite ?bool_decide_eq_false_2 by done.
    apply IH.
    + done.
    + unfold bytes.Len in *. rewrite length_drop. lia.
    + rewrite Len_app. unfold bytes.Len in *. rewrite length_take. lia.
    + lia.
    + unfold bytes.Len in *. rewrite length_drop. lia.
Qed.

(** The only error the loop ever returns is the too-large error: the branch
    "Error when copying data" is never taken, since [CopyN] reports an error
    only with a short count, which ends the loop as "Done writing". *)
Lemma copyLoop_error fuel : forall s s' e,
  copyLoop chunk fuel uploadLimit s = Some (s', Some e) ->
  exists n, e = TooLargeStreamed n uploadLimit /\ uploadLimit < n.
Proof.
  induction fuel as [|fuel IH]; intros s s' e; [done|].
  simpl. destruct (ls_i s <? bytes.Len (ls_buf s)); [|done].
  destruct (io.CopyN (ls_buf s) (ls_file s) chunk) as [[[b r] k] err] eqn:Hc.
  destruct (Z.gtb_spec (ls_totalWritten s + k) uploadLimit).
  { intros [= <- <-]. eexists. split; [done|lia]. }
  destruct (Z.ltb_spec k chunk); simpl; [done|].
  case_bool_decide; [done|].
  destruct err as [e'|]; [|by apply IH].
  apply CopyN_error in Hc; lia.
Qed.

(** The loop always finishes when the fuel exceeds the number of pending
    bytes. *)
Lemma copyLoop_fuel fuel : forall s,
  (length (pending (ls_file s)) < fuel)%nat ->
  is_Some (copyLoop chunk fuel uploadLimit s).
Proof.
  induction fuel as [|fuel IH]; intros s Hfuel; [lia|].
  simpl. destruct (ls_i s <? bytes.Len (ls_buf s)); [|done].
  destruct s as [b [d flt] tw i]. simpl in *.
  destruct (Z.lt_ge_cases (bytes.Len d) chunk) as [Hshort|Hfull].
  - rewrite CopyN_short by done.
    destruct (_ >? _); [done|].
    destruct (Z.ltb_spec (bytes.Len d) chunk); [done|lia].
  - rewrite CopyN_full by lia.
    destruct (_ >? _); [done|].
    destruct (Z.ltb_spec chunk chunk); [lia|]. simpl.
    rewrite ?bool_decide_eq_false_2 by done.
    apply IH. simpl. unfold bytes.Len in *. rewrite length_drop. lia.
Qed.

End Loop.

(** ** Receiving the form file *)

Lemma Len_replicate n : 0 <= n -> bytes.Len (replicate (Z.to_nat n) x00) = n.
Proof. intros. unfold bytes.Len. rewrite length_replicate. lia. Qed.

(** Truncating to the number of bytes received keeps zero bytes only. *)
Lemma Truncate_zeros n (d : list byte) :
  0 <= n ->
  bytes.Len d <= n ->
  bytes.Truncate (replicate (Z.to_nat n) x00 ++ d) (0 + bytes.Len d) =
    Some (replicate (length d) x00).
Proof.
  intros Hn Hd. unfold bytes.Truncate.
  rewrite Len_app, Len_replicate by lia.
  destruct (Z.ltb_spec (0 + bytes.Len d) 0); [unfold bytes.Len in *; lia|].
  destruct (Z.ltb_spec (n + bytes.Len d) (0 + bytes.Len d)); [lia|]. simpl.
  unfold bytes.Len in *.
  replace (Z.to_nat (0 + Z.of_nat (length d))) with (length d) by lia.
  rewrite take_app_le by (rewrite length_replicate; lia).
  rewrite take_replicate.
  by replace (length d `min` Z.to_nat n)%nat with (length d) by lia.
Qed.

(** With a positive limit, a source of at most [uploadLimit] bytes is
    accepted whatever its end report is, and the buffer that is kept holds
    as many zero bytes as the source had bytes: the zero bytes [make] put
    in front are what [Truncate] keeps. *)
Lemma receive_within req sd fh d flt uploadLimit w :
  0 < uploadLimit ->
  bytes.Len d <= uploadLimit ->
  receive req sd fh (mkReader d flt) uploadLimit w =
    (Return (inl (mkUploadedFile req sd (multipart.Header fh)
                    (multipart.Filename fh) (fresh (dom (heap w))))),
     mkWorld (files w) (denied w) (space w) (logs w)
       (<[fresh (dom (heap w)) := replicate (length d) x00]> (heap w))).
Proof.
  intros Hpos Hfit. unfold receive, make.
  destruct (Z.ltb_spec uploadLimit 0); [lia|].
  unfold bytes.NewBuffer. cbn [pending].
  destruct (copyLoop_within chunkSize uploadLimit chunkSize_pos
              (S (length d)) (replicate (Z.to_nat uploadLimit) x00) d flt 0)
    as [i' ->]; try lia.
  { rewrite Len_replicate; lia. }
  cbn [ls_buf ls_totalWritten]. by rewrite Truncate_zeros by lia.
Qed.

(** With a positive limit, a source of more than [uploadLimit] bytes is
    refused with the too-large error, and the world is left as it was. *)
Lemma receive_beyond req sd fh d flt uploadLimit w :
  0 < uploadLimit ->
  uploadLimit < bytes.Len d ->
  exists n, uploadLimit < n /\
    receive req sd fh (mkReader d flt) uploadLimit w =
      (Return (inr (TooLargeStreamed n uploadLimit)), w).
Proof.
  intros Hpos Hbig. unfold receive, make.
  destruct (Z.ltb_spec uploadLimit 0); [lia|].
  unfold bytes.NewBuffer. cbn [pending].
  destruct (copyLoop_beyond chunkSize uploadLimit chunkSize_pos
              (S (length d)) (replicate (Z.to_nat uploadLimit) x00) d flt 0)
    as (s' & n & -> & Hn); try lia.
  { rewrite Len_replicate; lia. }
  exists n. done.
Qed.

(** With the limit 0 the loop body is never entered: any source is accepted
    and an empty buffer is kept. *)
Lemma receive_limit_zero req sd fh file w :
  receive req sd fh file 0 w =
    (Return (inl (mkUploadedFile req sd (multipart.Header fh)
                    (multipart.Filename fh) (fresh (dom (heap w))))),
     mkWorld (files w) (denied w) (space w) (logs w)
       (<[fresh (dom (heap w)) := []]> (heap w))).
Proof. reflexivity. Qed.

(** A negative limit makes the allocation panic. *)
Lemma receive_negative req sd fh file uploadLimit w :
  uploadLimit < 0 ->
  receive req sd fh file uploadLimit w =
    (RuntimePanic "makeslice: len out of range", w).
Proof.
  intros Hneg. unfold receive, make.
  by destruct (Z.ltb_spec uploadLimit 0); [|lia].
Qed.

(** [receive] never reports a read error, and never runs out of fuel. *)
Lemma receive_outcome req sd fh file uploadLimit w :
  (exists u w', receive req sd fh file uploadLimit w = (Return (inl u), w'))
  \/ (exists n, uploadLimit < n /\
        receive req sd fh file uploadLimit w =
          (Return (inr (TooLargeStreamed n uploadLimit)), w))
  \/ (exists msg, receive req sd fh file uploadLimit w = (RuntimePanic msg, w)).
Proof.
  unfold receive. destruct (make uploadLimit) as [data|]; [|by eauto].
  destruct (copyLoop_fuel chunkSize uploadLimit chunkSize_pos
              (S (length (pending file)))
              (mkLoop (bytes.NewBuffer data) file 0 0)) as [[s' oe] Hrun].
  { simpl. lia. }
  rewrite Hrun. destruct oe as [e|].
  - apply copyLoop_error in Hrun as (n & -> & Hn); [|apply chunkSize_pos].
    right; left. eauto.
  - destruct (bytes.Truncate _ _); [|by eauto]. left.
    unfold bind, alloc, ret. eauto.
Qed.

(** ** Locating the field *)

Lemma ingest_found req sd formID uploadLimit form fh rest r :
  http.body req = inr form ->
  multipart.Files form !! formID = Some (fh :: rest) ->
  multipart.content fh = inl r ->
  ingest req sd formID uploadLimit = receive req sd fh r uploadLimit.
Proof.
  intros Hb Hf Hc. unfold ingest, http.ParseMultipartForm, http.FormFile.
  rewrite Hb, Hf. unfold multipart.Open. by rewrite Hc.
Qed.

(** When the form has no file under the field name, [FormFile] returns the
    nil interface, and [defer file.Close()], which comes before the error
    check, panics. *)
Lemma ingest_missing req sd formID uploadLimit form w :
  http.body req = inr form ->
  multipart.Files form !! formID = None
  \/ multipart.Files form !! formID = Some [] ->
  ingest req sd formID uploadLimit w =
    (RuntimePanic "invalid memory address or nil pointer dereference", w).
Proof.
  intros Hb Hf. unfold ingest, http.ParseMultipartForm, http.FormFile.
  rewrite Hb. by destruct Hf as [-> | ->].
Qed.

(** A body that does not parse as multipart form data is reported as the
    parser's error. *)
Lemma ingest_parse_error req sd formID uploadLimit e w :
  http.body req = inl e ->
  ingest req sd formID uploadLimit w = (Return (inr e), w).
Proof.
  intros Hb. unfold ingest, http.ParseMultipartForm. by rewrite Hb.
Qed.

(** [ingest] touches neither the file system nor the log. *)
Lemma ingest_frame req sd formID uploadLimit w :
  let w' := (ingest req sd formID uploadLimit w).2 in
  files w' = files w /\ denied w' = denied w /\ space w' = space w
  /\ logs w' = logs w.
Proof.
  unfold ingest.
  destruct (http.ParseMultipartForm _ _); [done|].
  destruct (http.FormFile req formID) as [[file handler] err].
  destruct file as [| |r]; [done| |].
  - destruct err; [done|]. done.
  - destruct err; [done|]. destruct handler as [fh|]; [|done].
    destruct (receive_outcome req sd fh r uploadLimit w)
      as [(u & w' & Hr) | [(n & _ & Hr) | (msg & Hr)]]; rewrite Hr;
      simpl; [|done|done].
    revert Hr. unfold receive.
    destruct (make uploadLimit); [|done].
    destruct (copyLoop _ _ _ _) as [[s' [e|]]|]; [done| |done].
    destruct (bytes.Truncate _ _); [|done].
    unfold bind, alloc, ret. by intros [= _ <-].
Qed.

(** ** The precheck *)

Lemma wrap64_id z : in_int64 z -> wrap64 z = z.
Proof.
  unfold in_int64, MinInt64, MaxInt64, wrap64. intros Hz.
  rewrite Z.mod_small; lia.
Qed.

(** A declared length over the limit is refused before the form is
    parsed. *)
Lemma newUploadedFile_precheck req sd formID uploadLimit w :
  uploadLimit < clientLength req ->
  exists w',
    newUploadedFile req sd formID uploadLimit w =
      (Return (inr (TooLargeDeclared (clientLength req) uploadLimit)), w')
    /\ files w' = files w /\ heap w' = heap w.
Proof.
  unfold clientLength, newUploadedFile. intros Hgt.
  destruct (strconv.Atoi _) as [v [e|]]; simpl in *;
    unfold bind, log_Error, ret;
    (destruct (Z.gtb_spec (wrap64 (v - 20)) uploadLimit); [|lia]);
    eexists; split; done.
Qed.

(** A declared length within the limit hands over to [ingest]; when the
    header did not parse, this happens after one line was logged. *)
Lemma newUploadedFile_ingest req sd formID uploadLimit w :
  clientLength req <= uploadLimit ->
  newUploadedFile req sd formID uploadLimit w =
    ingest req sd formID uploadLimit
      (match (strconv.Atoi (http.Get (http.Header req) "Content-Length")).2 with
       | Some _ =>
           logged ("Invalid Content-Length: "
                   +:+ http.Get (http.Header req) "Content-Length") w
       | None => w
       end).
Proof.
  unfold clientLength, newUploadedFile. intros Hle.
  destruct (strconv.Atoi _) as [v [e|]]; simpl in *;
    unfold bind, log_Error, ret;
    (destruct (Z.gtb_spec (wrap64 (v - 20)) uploadLimit); [lia|]); done.
Qed.

(** Construction never creates, changes or removes a file. *)
Lemma newUploadedFile_files req sd formID uploadLimit w :
  files (newUploadedFile req sd formID uploadLimit w).2 = files w.
Proof.
  destruct (Z.lt_ge_cases uploadLimit (clientLength req)) as [Hgt|Hle].
  - destruct (newUploadedFile_precheck req sd formID uploadLimit w Hgt)
      as (w' & -> & Hf & _). done.
  - rewrite newUploadedFile_ingest by lia.
    destruct (ingest_frame req sd formID uploadLimit
      (match (strconv.Atoi (http.Get (http.Header req) "Content-Length")).2 with
       | Some _ =>
           logged ("Invalid Content-Length: "
                   +:+ http.Get (http.Header req) "Content-Length") w
       | None => w
       end)) as (-> & _).
    by destruct (strconv.Atoi _).2.
Qed.

(** With a positive limit, a form file larger than the limit is always
    refused with a too-large error, whatever the Content-Length header
    says, and no file and no buffer is left behind. *)
Lemma newUploadedFile_beyond req sd formID uploadLimit form fh rest d flt w :
  0 < uploadLimit ->
  http.body req = inr form ->
  multipart.Files form !! formID = Some (fh :: rest) ->
  multipart.content fh = inl (mkReader d flt) ->
  uploadLimit < bytes.Len d ->
  exists e w',
    newUploadedFile req sd formID uploadLimit w = (Return (inr e), w')
    /\ isTooLarge e = true /\ files w' = files w /\ heap w' = heap w.
Proof.
  intros Hpos Hb Hf Hc Hbig.
  destruct (Z.lt_ge_cases uploadLimit (clientLength req)) as [Hgt|Hle].
  - destruct (newUploadedFile_precheck req sd formID uploadLimit w Hgt)
      as (w' & -> & Hfs & Hh). eauto 10.
  - rewrite newUploadedFile_ingest by lia.
    rewrite (ingest_found _ _ _ _ _ _ _ _ Hb Hf Hc).
    match goal with |- context [receive _ _ _ _ _ ?w0] =>
      destruct (receive_beyond req sd fh d flt uploadLimit w0 Hpos Hbig)
        as (n & Hn & ->) end.
    eexists _, _. split; [done|]. split; [done|].
    by destruct (strconv.Atoi _).2.
Qed.

(** With a positive limit, a form file within the limit whose declared
    length passes the precheck is accepted; the buffer that is kept has
    the size of the source and holds zero bytes only. *)
Lemma newUploadedFile_within req sd formID uploadLimit form fh rest d flt w :
  0 < uploadLimit ->
  clientLength req <= uploadLimit ->
  http.body req = inr form ->
  multipart.Files form !! formID = Some (fh :: rest) ->
  multipart.content fh = inl (mkReader d flt) ->
  bytes.Len d <= uploadLimit ->
  exists u w',
    newUploadedFile req sd formID uploadLimit w = (Return (inl u), w')
    /\ heap w' !! buf u = Some (replicate (length d) x00)
    /\ files w' = files w.
Proof.
  intros Hpos Hle Hb Hf Hc Hfit.
  rewrite newUploadedFile_ingest by lia.
  rewrite (ingest_found _ _ _ _ _ _ _ _ Hb Hf Hc).
  rewrite receive_within by done.
  eexists _, _. split; [done|]. simpl. rewrite lookup_insert_eq.
  split; [done|]. by destruct (strconv.Atoi _).2.
Qed.

(** After construction the buffer is never longer than the limit. *)
Lemma newUploadedFile_size_bound req sd formID uploadLimit w u w' :
  newUploadedFile req sd formID uploadLimit w = (Return (inl u), w') ->
  exists b, heap w' !! buf u = Some b /\ bytes.Len b <= uploadLimit.
Proof.
  destruct (Z.lt_ge_cases uploadLimit (clientLength req)) as [Hgt|Hle].
  { destruct (newUploadedFile_precheck req sd formID uploadLimit w Hgt)
      as (w1 & -> & _). done. }
  rewrite newUploadedFile_ingest by lia.
  match goal with |- context [ingest _ _ _ _ ?w0] => generalize w0 end.
  intros w0. unfold ingest.
  destruct (http.ParseMultipartForm _ _); [done|].
  destruct (http.FormFile req formID) as [[file handler] err].
  destruct file as [| |[d flt]]; [done| |].
  { by destruct err. }
  destruct err; [done|]. destruct handler as [fh|]; [|done].
  destruct (Z.lt_trichotomy uploadLimit 0) as [Hneg|[->|Hpos]].
  - by rewrite receive_negative.
  - rewrite receive_limit_zero. intros [= <- <-]. simpl.
    rewrite lookup_insert_eq. by exists [].
  - destruct (Z.lt_ge_cases uploadLimit (bytes.Len d)) as [Hbig|Hfit].
    + destruct (receive_beyond req sd fh d flt uploadLimit w0 Hpos Hbig)
        as (n & _ & ->). done.
    + rewrite receive_within by lia. intros [= <- <-]. simpl.
      rewrite lookup_insert_eq. eexists. split; [done|].
      unfold bytes.Len in *. rewrite length_replicate. lia.
Qed.

(** * The claims

    ** Construction *)

(** The messages of the two too-large errors are not empty. *)
Lemma Error_too_large_nonempty describeBytes e :
  isTooLarge e = true -> Error describeBytes e <> "".
Proof. by destruct e. Qed.

(** C1.  The claim: a body within the limit is ingested, [size()] is the
    number of bytes transferred, and the retained bytes, hence the bytes a
    later save writes, equal the source content.  The code at a 3-byte
    upload ["ABC"] under a limit of 1024 bytes, with a declared length that
    passes the precheck: construction succeeds and [size()] is 3, but the
    buffer holds three zero bytes and so does the file that [save] writes.
    [bytes.NewBuffer(make([]byte, uploadLimit))] makes the zero-filled
    slice the buffer's contents, the upload is appended behind it, and
    [Truncate] keeps the head. *)
Theorem C1_retained_bytes_are_zero :
  exists u w1 w2,
    newUploadedFile (sampleRequest (Some "200") ["A"; "B"; "C"]%byte None)
      "/srv" "file" 1024 emptyWorld = (Return (inl u), w1)
    /\ uploadedfileSize (sampleCall 1 "" 0 (Some u)) w1
       = (Return [LNumber 3], w1)
    /\ heap w1 !! buf u = Some [x00; x00; x00]
    /\ uploadedfileSave sampleDescribe (sampleCall 1 "" 0 (Some u)) w1
       = (Return [LBool true], w2)
    /\ files w2 !! "/srv/a.txt" = Some [x00; x00; x00].
Proof.
  eexists _, _, _. split; [vm_compute; reflexivity|].
  split; [vm_compute; reflexivity|].
  split; [vm_compute; reflexivity|].
  split; vm_compute; reflexivity.
Qed.

(** C2.  The claim: a body over the limit is always refused with a
    too-large error, returned as (nil, message).  The code at the limit 0
    (the call [UploadedFile("file", 0)]) and a 1-byte upload without a
    Content-Length header: the loop condition [i < buf.Len()] is false at
    once, nothing is read, and the constructor returns the userdata and an
    empty error string; the artifact has size 0. *)
Theorem C2_limit_zero_accepts_oversized_body :
  exists u w1,
    UploadedFileConstructor sampleDescribe
      (sampleRequest None ["A"]%byte None) "/srv"
      (sampleCall 2 "" 0 None) emptyWorld
    = (Return [LUserData u; LString ""], w1)
    /\ uploadedfileSize (sampleCall 1 "" 0 (Some u)) w1
       = (Return [LNumber 0], w1).
Proof.
  eexists _, _. split; vm_compute; reflexivity.
Qed.

(** C3.  The claim: a source that reports a read error while the running
    total is within the limit aborts construction with a stream-read
    error.  The code at a source that delivers 2 bytes and then fails,
    under a limit of 1024 bytes: the short count ends the loop as "Done
    writing" before the error is looked at, and construction succeeds with
    a 2-byte artifact. *)
Theorem C3_read_error_is_swallowed :
  exists u w1,
    newUploadedFile
      (sampleRequest (Some "200") ["A"; "B"]%byte
         (Some (Foreign "unexpected EOF")))
      "/srv" "file" 1024 emptyWorld = (Return (inl u), w1)
    /\ uploadedfileSize (sampleCall 1 "" 0 (Some u)) w1
       = (Return [LNumber 2], w1).
Proof.
  eexists _, _. split; vm_compute; reflexivity.
Qed.

(** C4.  The claim: when the form has no file under the field name,
    construction returns (nil, message) and does not panic.  The code at a
    form whose only file field is [file], asked for [avatar]:
    [defer file.Close()] on the nil interface precedes the error check, so
    [newUploadedFile] panics and the constructor returns nothing. *)
Theorem C4_missing_field_panics :
  newUploadedFile (sampleRequest (Some "200") ["A"]%byte None)
    "/srv" "avatar" 1024 emptyWorld
  = (RuntimePanic "invalid memory address or nil pointer dereference",
     emptyWorld)
  /\ (UploadedFileConstructor sampleDescribe
        (sampleRequest (Some "200") ["A"]%byte None) "/srv"
        (mkLState 1 (fun _ => "avatar") (fun _ => 0) (fun _ => None)
           (fun k => if k =? 1 then LTString else LTNil))
        emptyWorld).1
     = RuntimePanic "invalid memory address or nil pointer dereference".
Proof. split; vm_compute; reflexivity. Qed.

(** C5.  The claim: after construction the length is at most the limit,
    and at no point during construction does the buffer grow beyond the
    limit.  The code at a limit of 4 bytes and a 1-byte upload: when the
    loop is left the buffer holds 5 bytes, the 4 zero bytes of the
    allocation and the byte received. *)
Theorem C5_buffer_grows_beyond_limit :
  exists data s,
    make 4 = Some data
    /\ copyLoop chunkSize 2 4
         (mkLoop (bytes.NewBuffer data) (mkReader ["A"]%byte None) 0 0)
       = Some (s, None)
    /\ ls_buf s = [x00; x00; x00; x00; "A"%byte]
    /\ bytes.Len (ls_buf s) = 5.
Proof.
  eexists _, _. split; [reflexivity|].
  split; [vm_compute; reflexivity|]. split; reflexivity.
Qed.

(** ** Writing to disk *)

(** A userdata that holds an UploadedFile passes the check. *)
Lemma checkUploadedFile_self L ulf :
  UserData L 1 = Some ulf -> checkUploadedFile L = ret ulf.
Proof.
  intros Hself. unfold checkUploadedFile, CheckUserData. by rewrite Hself.
Qed.

Section Writing.

Variable describeBytes : Z -> string.

(** An existing destination is refused: nothing is written, one line is
    logged. *)
Lemma write_existing ulf fullFilename c w :
  files w !! fullFilename = Some c ->
  write describeBytes ulf fullFilename w =
    (Return (Some (FileExists fullFilename)),
     logged (fullFilename +:+ " already exists") w).
Proof.
  intros Hex. unfold write, bind, os.Stat. rewrite Hex. reflexivity.
Qed.

(** A fresh destination that can be created, on a device with room for the
    buffer: the file is created with the buffer's bytes and the buffer is
    left empty. *)
Lemma write_fresh ulf fullFilename b w :
  files w !! fullFilename = None ->
  fullFilename ∉ denied w ->
  heap w !! buf ulf = Some b ->
  (length b <= space w)%nat ->
  write describeBytes ulf fullFilename w =
    (Return None,
     mkWorld (<[fullFilename := b]> (files w)) (denied w)
       (space w - length b)%nat (logs w) (<[buf ulf := []]> (heap w))).
Proof.
  intros Hfresh Hperm Hbuf Hroom.
  unfold write, bind, os.Stat, os.OpenFile. rewrite Hfresh.
  rewrite decide_False by done. rewrite Hfresh.
  unfold Copy, bind, load. cbn [heap]. rewrite Hbuf.
  destruct b as [|x b].
  - unfold ret. simpl. rewrite Nat.sub_0_r.
    by rewrite (insert_id (heap w)) by done.
  - unfold os.Write, store, ret. cbn [files denied space logs heap fst snd].
    rewrite lookup_insert_eq. simpl default.
    rewrite Nat.min_l by lia.
    rewrite take_ge, (drop_ge (x :: b)), drop_nil by lia.
    destruct (Nat.ltb_spec (length (x :: b)) (length (x :: b))); [lia|].
    cbn [snd bind]. rewrite insert_insert_eq. rewrite app_nil_r. reflexivity.
Qed.

(** A successful write found a fresh destination and leaves the buffer
    empty. *)
Lemma write_success ulf fullFilename w w1 :
  write describeBytes ulf fullFilename w = (Return None, w1) ->
  files w !! fullFilename = None
  /\ is_Some (files w1 !! fullFilename)
  /\ heap w1 !! buf ulf = Some []
  /\ denied w1 = denied w.
Proof.
  unfold write, bind, os.Stat, os.OpenFile.
  destruct (files w !! fullFilename) eqn:Hfresh; [done|].
  destruct (decide (fullFilename ∈ denied w)); [done|]. rewrite Hfresh.
  unfold Copy, bind, load. cbn [heap].
  destruct (heap w !! buf ulf) as [[|x b]|] eqn:Hbuf; [| |done].
  - unfold ret. intros [= <-]. cbn. rewrite lookup_insert_eq. eauto.
  - unfold os.Write, store, ret. cbn [files denied space logs heap fst snd].
    remember (length (x :: b) `min` space w)%nat as m eqn:Hm.
    destruct (Nat.ltb_spec m (length (x :: b))) as [Hshort|Hfull]; [done|].
    intros [= <-]. cbn [files heap denied].
    rewrite !lookup_insert_eq. rewrite (drop_ge (x :: b)) by lia. eauto.
Qed.

(** What [save] and [savein] return is whether [write] succeeded. *)
Lemma uploadedfileSave_write L ulf w :
  UserData L 1 = Some ulf ->
  uploadedfileSave describeBytes L w =
    (e <- write describeBytes ulf
            (saveFilename ulf (if GetTop L =? 2 then ToString L 2 else "")) ;;
     ret [LBool (bool_decide (e = None))]) w.
Proof.
  intros Hself. unfold uploadedfileSave.
  by rewrite (checkUploadedFile_self _ _ Hself).
Qed.

Lemma uploadedfileSaveIn_write L ulf w :
  UserData L 1 = Some ulf ->
  uploadedfileSaveIn describeBytes L w =
    (e <- write describeBytes ulf (saveInFilename ulf (ToString L 2)) ;;
     ret [LBool (bool_decide (e = None))]) w.
Proof.
  intros Hself. unfold uploadedfileSaveIn.
  by rewrite (checkUploadedFile_self _ _ Hself).
Qed.

(** A binding that returned [true] ran a successful [write]. *)
Lemma returned_true ulf fullFilename w w1 :
  (e <- write describeBytes ulf fullFilename ;;
   ret [LBool (bool_decide (e = None))]) w = (Return [LBool true], w1) ->
  write describeBytes ulf fullFilename w = (Return None, w1).
Proof.
  unfold bind at 1.
  destruct (write describeBytes ulf fullFilename w) as [[e| | |] w'];
    [|done..].
  unfold ret. intros [= Hb <-]. by destruct e.
Qed.

(** C6.  The first save to a fresh path returns true and creates the file;
    an immediately following save to the same path returns false and
    leaves the file system, the created file included, as it is.  The path
    is fresh, can be created, and the device has room for the buffer. *)
Theorem C6_save_never_overwrites L ulf b w :
  UserData L 1 = Some ulf ->
  let dest := saveFilename ulf (if GetTop L =? 2 then ToString L 2 else "") in
  files w !! dest = None ->
  dest ∉ denied w ->
  heap w !! buf ulf = Some b ->
  (length b <= space w)%nat ->
  exists w1 w2,
    uploadedfileSave describeBytes L w = (Return [LBool true], w1)
    /\ files w1 = <[dest := b]> (files w)
    /\ uploadedfileSave describeBytes L w1 = (Return [LBool false], w2)
    /\ files w2 = files w1
    /\ files w2 !! dest = Some b
    /\ space w2 = space w1
    /\ heap w2 = heap w1.
Proof.
  intros Hself dest Hfresh Hperm Hbuf Hroom.
  eexists _, _. split.
  { rewrite (uploadedfileSave_write _ _ _ Hself). unfold bind at 1.
    fold dest. rewrite (write_fresh ulf dest b w) by done. reflexivity. }
  split; [reflexivity|]. split.
  { rewrite (uploadedfileSave_write _ _ _ Hself). unfold bind at 1.
    fold dest. erewrite write_existing; [reflexivity|].
    cbn [files]. apply lookup_insert_eq. }
  cbn [files logged space heap]. rewrite lookup_insert_eq. done.
Qed.

(** C8.  [savein(dir)] writes to [dir] joined with the artifact's filename
    when [dir] is absolute, the script directory not taking part, and to
    the script directory joined with [dir] and the filename otherwise: the
    file appears at that path, with the buffer's bytes.  The path is
    fresh, can be created, and the device has room for the buffer. *)
Theorem C8_savein_destination L ulf b w :
  UserData L 1 = Some ulf ->
  let dir := ToString L 2 in
  let dest := if filepath.IsAbs dir
              then filepath.Join [dir; filename ulf]
              else filepath.Join [scriptdir ulf; dir; filename ulf] in
  files w !! dest = None ->
  dest ∉ denied w ->
  heap w !! buf ulf = Some b ->
  (length b <= space w)%nat ->
  exists w1,
    uploadedfileSaveIn describeBytes L w = (Return [LBool true], w1)
    /\ files w1 = <[dest := b]> (files w).
Proof.
  intros Hself dir dest Hfresh Hperm Hbuf Hroom.
  eexists. split.
  - rewrite (uploadedfileSaveIn_write _ _ _ Hself). unfold bind at 1.
    change (saveInFilename ulf (ToString L 2)) with dest.
    rewrite (write_fresh ulf dest b w) by done. reflexivity.
  - reflexivity.
Qed.

(** C9.  After a save or savein that returned true, [size()] returns 0, and
    a further save of the same artifact to any fresh path that can be
    created succeeds and creates an empty file. *)
Theorem C9_save_drains_buffer L ulf w w1 :
  UserData L 1 = Some ulf ->
  uploadedfileSave describeBytes L w = (Return [LBool true], w1)
  \/ uploadedfileSaveIn describeBytes L w = (Return [LBool true], w1) ->
  (forall L', UserData L' 1 = Some ulf ->
     uploadedfileSize L' w1 = (Return [LNumber 0], w1))
  /\ (forall L', UserData L' 1 = Some ulf ->
      let dest' :=
        saveFilename ulf (if GetTop L' =? 2 then ToString L' 2 else "") in
      files w1 !! dest' = None ->
      dest' ∉ denied w1 ->
      exists w2,
        uploadedfileSave describeBytes L' w1 = (Return [LBool true], w2)
        /\ files w2 !! dest' = Some []).
Proof.
  intros Hself Hsaved.
  assert (Hempty : heap w1 !! buf ulf = Some []).
  { destruct Hsaved as [Hs|Hs].
    - rewrite (uploadedfileSave_write _ _ _ Hself) in Hs.
      apply returned_true, write_success in Hs. tauto.
    - rewrite (uploadedfileSaveIn_write _ _ _ Hself) in Hs.
      apply returned_true, write_success in Hs. tauto. }
  split.
  - intros L' Hself'. unfold uploadedfileSize.
    rewrite (checkUploadedFile_self _ _ Hself'). unfold bind, ret, load. by rewrite Hempty.
  - intros L' Hself' dest' Hfresh Hperm. eexists. split.
    + rewrite (uploadedfileSave_write _ _ _ Hself'). unfold bind at 1.
      fold dest'. rewrite (write_fresh ulf dest' [] w1); [reflexivity|done..|].
      simpl. lia.
    + cbn [files]. apply lookup_insert_eq.
Qed.

End Writing.

(** ** The declared length *)

Lemma digit_range c v : strconv.digit c = Some v -> 0 <= v <= 9.
Proof.
  unfold strconv.digit.
  destruct (Z.leb_spec 48 (Z.of_N (N_of_ascii c)));
    destruct (Z.leb_spec (Z.of_N (N_of_ascii c)) 57); simpl; try done.
  intros [= <-]. lia.
Qed.

Lemma parseDigits_nonneg s : forall n m,
  0 <= n -> strconv.parseDigits s n = strconv.UOk m -> 0 <= m.
Proof.
  induction s as [|c s IH]; intros n m Hn; simpl.
  - by intros [= <-].
  - destruct (strconv.digit c) as [v|] eqn:Hd; [|done].
    apply digit_range in Hd.
    destruct (MaxUint64 <? n * 10 + v); [done|]. apply IH. lia.
Qed.

Lemma ParseUint_nonneg s un : strconv.ParseUint s = strconv.UOk un -> 0 <= un.
Proof.
  unfold strconv.ParseUint. destruct s; [done|].
  apply parseDigits_nonneg. lia.
Qed.

(** [Atoi] returns a value of type [int]. *)
Lemma Atoi_range s : in_int64 (strconv.Atoi s).1.
Proof.
  unfold strconv.Atoi, in_int64.
  destruct s as [|c rest]; [unfold MinInt64, MaxInt64; simpl; lia|].
  destruct (strconv.ParseUint _) as [un| |] eqn:Hp.
  - apply ParseUint_nonneg in Hp.
    destruct (c =? "-")%char; cbn [negb andb].
    + destruct (Z.ltb_spec (2 ^ 63) un); cbn [fst];
        unfold MinInt64, MaxInt64; lia.
    + destruct (Z.leb_spec (2 ^ 63) un); cbn [fst];
        unfold MinInt64, MaxInt64; lia.
  - cbn [fst]. unfold MinInt64, MaxInt64. lia.
  - destruct (c =? "-")%char; cbn [fst]; unfold MinInt64, MaxInt64; lia.
Qed.

(** On a syntax error the value is 0. *)
Lemma Atoi_syntax s num :
  (strconv.Atoi s).2 = Some (ErrSyntax num) -> (strconv.Atoi s).1 = 0.
Proof.
  unfold strconv.Atoi. destruct s as [|c rest]; [done|].
  destruct (strconv.ParseUint _) as [un| |]; [|done|].
  - destruct (negb _ && _); [done|]. by destruct (_ && _).
  - by destruct (c =? "-")%char.
Qed.

(** An absent header reads as the empty string, which is a syntax error. *)
Lemma Atoi_absent (h : gmap string (list string)) :
  h !! "Content-Length" = None ->
  strconv.Atoi (http.Get h "Content-Length") = (0, Some (ErrSyntax "")).
Proof. intros Hnone. unfold http.Get. by rewrite Hnone. Qed.

(** A declared length that is not negative stays so after the adjustment,
    up to the 20 bytes taken off. *)
Lemma clientLength_nonneg req :
  0 <= (strconv.Atoi (http.Get (http.Header req) "Content-Length")).1 ->
  -20 <= clientLength req.
Proof.
  intros Hv. unfold clientLength.
  pose proof (Atoi_range (http.Get (http.Header req) "Content-Length")) as Hr.
  unfold in_int64, MinInt64, MaxInt64 in Hr.
  rewrite wrap64_id; [lia|]. unfold in_int64, MinInt64, MaxInt64. lia.
Qed.

(** C7, as the code has it.  When the Content-Length header is absent or is
    not a decimal integer in syntax, and the limit is at least -20 (every
    limit that is not negative), one diagnostic line is logged and the
    outcome of construction is the outcome of parsing the form and
    streaming the field: the precheck refuses nothing. *)
Theorem C7_unparsable_length_skips_precheck req sd formID uploadLimit w num :
  let contentLength := http.Get (http.Header req) "Content-Length" in
  (strconv.Atoi contentLength).2 = Some (ErrSyntax num) ->
  -20 <= uploadLimit ->
  newUploadedFile req sd formID uploadLimit w =
    ingest req sd formID uploadLimit
      (logged ("Invalid Content-Length: " +:+ contentLength) w).
Proof.
  intros contentLength Herr Hlim.
  rewrite newUploadedFile_ingest.
  - fold contentLength. by rewrite Herr.
  - unfold clientLength. fold contentLength.
    rewrite (Atoi_syntax _ _ Herr). vm_compute wrap64. lia.
Qed.

Section Constructor.

Variable describeBytes : Z -> string.

(** The constructor returns what [newUploadedFile] returns, as a pair. *)
Lemma UploadedFileConstructor_limit req sd L w :
  ToString L 1 <> "" ->
  GetTop L = 2 ->
  UploadedFileConstructor describeBytes req sd L w =
    (r <- newUploadedFile req sd (ToString L 1)
            (wrap64 (wrap64 (ToInt L 2) * MiB)) ;;
     match r with
     | inr err =>
         log_Error (Error describeBytes err) ;;;
         ret [LNil; LString (Error describeBytes err)]
     | inl u => ret [LUserData u; LString ""]
     end) w.
Proof.
  intros Hid Htop. unfold UploadedFileConstructor.
  destruct (String.eqb_spec (ToString L 1) ""); [done|].
  rewrite Htop. simpl (2 =? 2).
  unfold constructUploadedFile, bind, ret.
  destruct (newUploadedFile _ _ _ _ w) as [[[u|e]| | |] w']; reflexivity.
Qed.

(** A limit in bytes is a multiple of [MiB], also after the wrap-around:
    when negative it is -1 MiB at most. *)
Lemma wrap64_MiB_negative z : wrap64 (z * MiB) < 0 -> wrap64 (z * MiB) <= - MiB.
Proof.
  unfold wrap64, MiB.
  change (2 ^ 63) with 9223372036854775808.
  change (2 ^ 64) with 18446744073709551616.
  change (1024 * 1024) with 1048576.
  pose proof (Z.div_mod (z * 1048576 + 9223372036854775808)
                18446744073709551616 ltac:(lia)) as Hdm.
  generalize dependent
    ((z * 1048576 + 9223372036854775808) mod 18446744073709551616).
  generalize ((z * 1048576 + 9223372036854775808) / 18446744073709551616).
  intros q m Hdm Hneg. lia.
Qed.

(** C10, as the code has it.  The limit in bytes is the product of the
    argument and [MiB] as an [int64]: for an argument from -2^43 to -1 it
    is negative, for a smaller argument it can wrap to a limit that is not
    negative (-2^44 gives 0).  With a negative limit in bytes: when the
    declared length, less 20, is above the limit (so whenever the header
    is absent, not an integer, or not negative) the constructor returns
    nil and the non-empty message of the precheck, and no file is touched;
    the allocation is reached, and panics, when the declared length, less
    20, is at most the limit and the form has the field. *)
Theorem C10_negative_limit req sd L w :
  ToString L 1 <> "" ->
  GetTop L = 2 ->
  let uploadLimit := wrap64 (wrap64 (ToInt L 2) * MiB) in
  (- 2 ^ 43 <= ToInt L 2 < 0 ->
   uploadLimit = ToInt L 2 * MiB /\ uploadLimit < 0)
  /\ (ToInt L 2 = - 2 ^ 44 -> uploadLimit = 0)
  /\ (uploadLimit < 0 ->
      (0 <= (strconv.Atoi (http.Get (http.Header req) "Content-Length")).1 ->
       uploadLimit < clientLength req)
      /\ (uploadLimit < clientLength req ->
          exists msg w',
            UploadedFileConstructor describeBytes req sd L w =
              (Return [LNil; LString msg], w')
            /\ msg = Error describeBytes
                       (TooLargeDeclared (clientLength req) uploadLimit)
            /\ msg <> "" /\ files w' = files w)
      /\ (clientLength req <= uploadLimit ->
          forall form fh rest r,
            http.body req = inr form ->
            multipart.Files form !! ToString L 1 = Some (fh :: rest) ->
            multipart.content fh = inl r ->
            (UploadedFileConstructor describeBytes req sd L w).1 =
              RuntimePanic "makeslice: len out of range")).
Proof.
  intros Hid Htop uploadLimit. split; [|split].
  - intros Hk. unfold uploadLimit.
    rewrite (wrap64_id (ToInt L 2))
      by (unfold in_int64, MinInt64, MaxInt64; lia).
    rewrite wrap64_id by (unfold in_int64, MinInt64, MaxInt64, MiB; lia).
    unfold MiB. lia.
  - intros Hk. unfold uploadLimit. rewrite Hk. reflexivity.
  - intros Hlimit.
    assert (Hneg : uploadLimit < -20).
    { pose proof (wrap64_MiB_negative (wrap64 (ToInt L 2)) Hlimit) as Hm.
      fold uploadLimit in Hm. unfold MiB in Hm. lia. }
    split; [|split].
    + intros Hv. pose proof (clientLength_nonneg req Hv). lia.
    + intros Hgt.
      rewrite UploadedFileConstructor_limit by done.
      unfold bind at 1. fold uploadLimit.
      destruct (newUploadedFile_precheck req sd (ToString L 1) uploadLimit w
                  Hgt) as (w' & -> & Hfiles & _).
      eexists _, _. split; [reflexivity|]. split; [reflexivity|].
      split; [done|]. exact Hfiles.
    + intros Hle form fh rest r Hb Hf Hc.
      rewrite UploadedFileConstructor_limit by done.
      unfold bind at 1. fold uploadLimit.
      rewrite newUploadedFile_ingest by done.
      rewrite (ingest_found _ _ _ _ _ _ _ _ Hb Hf Hc).
      rewrite receive_negative by lia. reflexivity.
Qed.

End Constructor.

(** ** The claims on sample inputs *)

(** C6 at the sample artifact, saved twice under its own name. *)
Lemma C6_save_never_overwrites_witness :
  files sampleStore !! "/srv/a.txt" = None
  /\ exists w1 w2,
       uploadedfileSave sampleDescribe
         (sampleCall 1 "" 0 (Some sampleArtifact)) sampleStore
       = (Return [LBool true], w1)
       /\ files w1 = <["/srv/a.txt" := ["A"; "B"]%byte]> (files sampleStore)
       /\ uploadedfileSave sampleDescribe
            (sampleCall 1 "" 0 (Some sampleArtifact)) w1
          = (Return [LBool false], w2)
       /\ files w2 = files w1
       /\ files w2 !! "/srv/a.txt" = Some ["A"; "B"]%byte
       /\ space w2 = space w1
       /\ heap w2 = heap w1.
Proof.
  split; [reflexivity|].
  apply (C6_save_never_overwrites sampleDescribe
           (sampleCall 1 "" 0 (Some sampleArtifact)) sampleArtifact
           ["A"; "B"]%byte sampleStore).
  - reflexivity.
  - reflexivity.
  - apply not_elem_of_empty.
  - reflexivity.
  - simpl. lia.
Defined.

(** C8 at the sample artifact: an absolute and a relative directory. *)
Lemma C8_savein_destination_witness :
  (exists w1,
     uploadedfileSaveIn sampleDescribe
       (sampleCall 2 "/var/uploads" 0 (Some sampleArtifact)) sampleStore
     = (Return [LBool true], w1)
     /\ files w1
        = <["/var/uploads/a.txt" := ["A"; "B"]%byte]> (files sampleStore))
  /\ (exists w1,
        uploadedfileSaveIn sampleDescribe
          (sampleCall 2 "uploads" 0 (Some sampleArtifact)) sampleStore
        = (Return [LBool true], w1)
        /\ files w1
           = <["/srv/uploads/a.txt" := ["A"; "B"]%byte]> (files sampleStore)).
Proof.
  split.
  - apply (C8_savein_destination sampleDescribe
             (sampleCall 2 "/var/uploads" 0 (Some sampleArtifact))
             sampleArtifact ["A"; "B"]%byte sampleStore).
    + reflexivity.
    + reflexivity.
    + apply not_elem_of_empty.
    + reflexivity.
    + simpl. lia.
  - apply (C8_savein_destination sampleDescribe
             (sampleCall 2 "uploads" 0 (Some sampleArtifact))
             sampleArtifact ["A"; "B"]%byte sampleStore).
    + reflexivity.
    + reflexivity.
    + apply not_elem_of_empty.
    + reflexivity.
    + simpl. lia.
Defined.

(** C9 at the sample artifact: saved as [a.txt], then measured, then saved
    again as [b.txt]. *)
Lemma C9_save_drains_buffer_witness :
  let w1 := (uploadedfileSave sampleDescribe
               (sampleCall 1 "" 0 (Some sampleArtifact)) sampleStore).2 in
  uploadedfileSize (sampleCall 1 "" 0 (Some sampleArtifact)) sampleStore
  = (Return [LNumber 2], sampleStore)
  /\ uploadedfileSize (sampleCall 1 "" 0 (Some sampleArtifact)) w1
     = (Return [LNumber 0], w1)
  /\ exists w2,
       uploadedfileSave sampleDescribe
         (sampleCall 2 "b.txt" 0 (Some sampleArtifact)) w1
       = (Return [LBool true], w2)
       /\ files w2 !! "/srv/b.txt" = Some [].
Proof.
  intros w1.
  destruct (C9_save_drains_buffer sampleDescribe
              (sampleCall 1 "" 0 (Some sampleArtifact)) sampleArtifact
              sampleStore w1) as [Hsize Hagain].
  - reflexivity.
  - left. reflexivity.
  - split; [reflexivity|]. split.
    + apply Hsize. reflexivity.
    + apply (Hagain (sampleCall 2 "b.txt" 0 (Some sampleArtifact))).
      * reflexivity.
      * reflexivity.
      * apply not_elem_of_empty.
Defined.

(** C7, as stated, fails: with the header absent and the limit -1 MiB, and
    with a header that overflows [int] and the default limit, construction
    fails at the precheck. *)
Lemma C7_counterexample :
  (strconv.Atoi (http.Get (http.Header (sampleRequest None ["A"]%byte None))
                   "Content-Length")).2 = Some (ErrSyntax "")
  /\ (newUploadedFile (sampleRequest None ["A"]%byte None) "/srv" "file"
        (-1 * MiB) emptyWorld).1
     = Return (inr (TooLargeDeclared (-20) (-1 * MiB)))
  /\ (strconv.Atoi "99999999999999999999").2
     = Some (ErrRange "99999999999999999999")
  /\ (newUploadedFile
        (sampleRequest (Some "99999999999999999999") ["A"]%byte None)
        "/srv" "file" defaultUploadLimit emptyWorld).1
     = Return (inr (TooLargeDeclared (MaxInt64 - 20) defaultUploadLimit)).
Proof. repeat split; vm_compute; reflexivity. Qed.

(** C7 at a request without the header, under a limit of 4 bytes. *)
Lemma C7_unparsable_length_skips_precheck_witness :
  (strconv.Atoi (http.Get (http.Header (sampleRequest None ["A"]%byte None))
                   "Content-Length")).2 = Some (ErrSyntax "")
  /\ -20 <= 4
  /\ newUploadedFile (sampleRequest None ["A"]%byte None) "/srv" "file" 4
       emptyWorld
     = ingest (sampleRequest None ["A"]%byte None) "/srv" "file" 4
         (logged "Invalid Content-Length: " emptyWorld).
Proof.
  split; [reflexivity|]. split; [lia|].
  apply (C7_unparsable_length_skips_precheck
           (sampleRequest None ["A"]%byte None) "/srv" "file" 4 emptyWorld "").
  - reflexivity.
  - lia.
Defined.

(** C10, as stated, fails: the call [UploadedFile("file", -1)] on a request
    without a Content-Length header returns nil and a message; nothing
    panics. *)
Lemma C10_counterexample :
  (UploadedFileConstructor sampleDescribe
     (sampleRequest None ["A"]%byte None) "/srv"
     (sampleCall 2 "" (-1) None) emptyWorld).1
  = Return
      [LNil;
       LString "Uploaded file was too large: -20 bytes according to Content-Length (current limit is -1048576 bytes)"].
Proof. vm_compute. reflexivity. Qed.

(** C10 at the limit argument -1: a request without the header, and a
    request declaring the length -2000000. *)
Lemma C10_negative_limit_witness :
  (exists msg w',
     UploadedFileConstructor sampleDescribe
       (sampleRequest None ["A"]%byte None) "/srv"
       (sampleCall 2 "" (-1) None) emptyWorld
     = (Return [LNil; LString msg], w')
     /\ msg = Error sampleDescribe
                (TooLargeDeclared
                   (clientLength (sampleRequest None ["A"]%byte None))
                   (wrap64 (wrap64 (-1) * MiB)))
     /\ msg <> "" /\ files w' = files emptyWorld)
  /\ (UploadedFileConstructor sampleDescribe
        (sampleRequest (Some "-2000000") ["A"]%byte None) "/srv"
        (sampleCall 2 "" (-1) None) emptyWorld).1
     = RuntimePanic "makeslice: len out of range".
Proof.
  split.
  - destruct (C10_negative_limit sampleDescribe
                (sampleRequest None ["A"]%byte None) "/srv"
                (sampleCall 2 "" (-1) None) emptyWorld)
      as (Hrange & _ & Hnegative).
    + discriminate.
    + reflexivity.
    + destruct Hrange as [_ Hlimit]; [simpl; lia|].
      destruct (Hnegative Hlimit) as (Hdecl & Hrefused & _).
      apply Hrefused, Hdecl. vm_compute. discriminate.
  - destruct (C10_negative_limit sampleDescribe
                (sampleRequest (Some "-2000000") ["A"]%byte None) "/srv"
                (sampleCall 2 "" (-1) None) emptyWorld)
      as (Hrange & _ & Hnegative).
    + discriminate.
    + reflexivity.
    + destruct Hrange as [_ Hlimit]; [simpl; lia|].
      destruct (Hnegative Hlimit) as (_ & _ & Hpanic).
      eapply Hpanic.
      * vm_compute. discriminate.
      * reflexivity.
      * reflexivity.
      * reflexivity.
Defined.

(** The limit argument -2^44 wraps to a limit of 0 bytes: the constructor
    returns an artifact, and no error. *)
Example limit_argument_wraps :
  exists u w',
    UploadedFileConstructor sampleDescribe
      (sampleRequest None ["A"]%byte None) "/srv"
      (sampleCall 2 "" (- 2 ^ 44) None) emptyWorld
    = (Return [LUserData u; LString ""], w').
Proof. eexists _, _. vm_compute. reflexivity. Qed.

(** * Further properties of the upload subsystem *)

(** ** Construction *)

(** [receive] keeps every buffer that exists. *)
Lemma receive_heap req sd fh file uploadLimit w p b :
  heap w !! p = Some b ->
  heap (receive req sd fh file uploadLimit w).2 !! p = Some b.
Proof.
  intros Hp. unfold receive.
  destruct (make uploadLimit); [|done].
  destruct (copyLoop _ _ _ _) as [[s' [e|]]|]; [done| |done].
  destruct (bytes.Truncate _ _); [|done].
  unfold bind, alloc, ret. cbn [snd heap].
  rewrite lookup_insert_ne; [done|].
  intros <-. apply (is_fresh (dom (heap w))).
  apply elem_of_dom. eauto.
Qed.

Lemma ingest_heap req sd formID uploadLimit w p b :
  heap w !! p = Some b ->
  heap (ingest req sd formID uploadLimit w).2 !! p = Some b.
Proof.
  intros Hp. unfold ingest.
  destruct (http.ParseMultipartForm _ _); [done|].
  destruct (http.FormFile req formID) as [[file handler] err].
  destruct file as [| |r]; [done| |].
  - by destruct err.
  - destruct err; [done|]. destruct handler as [fh|]; [|done].
    by apply receive_heap.
Qed.

(** The buffer of a new artifact is a new one. *)
Lemma receive_fresh req sd fh file uploadLimit w u w' :
  receive req sd fh file uploadLimit w = (Return (inl u), w') ->
  heap w !! buf u = None /\ is_Some (heap w' !! buf u).
Proof.
  unfold receive. destruct (make uploadLimit); [|done].
  destruct (copyLoop _ _ _ _) as [[s' [e|]]|]; [done| |done].
  destruct (bytes.Truncate _ _); [|done].
  unfold bind, alloc, ret. intros [= <- <-]. cbn [buf heap]. split.
  - apply not_elem_of_dom, is_fresh.
  - rewrite lookup_insert_eq. eauto.
Qed.

Lemma ingest_fresh req sd formID uploadLimit w u w' :
  ingest req sd formID uploadLimit w = (Return (inl u), w') ->
  heap w !! buf u = None /\ is_Some (heap w' !! buf u).
Proof.
  unfold ingest.
  destruct (http.ParseMultipartForm _ _); [done|].
  destruct (http.FormFile req formID) as [[file handler] err].
  destruct file as [| |r]; [done| |].
  - by destruct err.
  - destruct err; [done|]. destruct handler as [fh|]; [|done].
    apply receive_fresh.
Qed.

(** [newUploadedFile] keeps every buffer that exists, and the buffer of
    the artifact it returns is a new one. *)
Lemma newUploadedFile_heap req sd formID uploadLimit w :
  (forall p b, heap w !! p = Some b ->
     heap (newUploadedFile req sd formID uploadLimit w).2 !! p = Some b)
  /\ (forall u w',
        newUploadedFile req sd formID uploadLimit w = (Return (inl u), w') ->
        heap w !! buf u = None /\ is_Some (heap w' !! buf u)).
Proof.
  destruct (Z.lt_ge_cases uploadLimit (clientLength req)) as [Hgt|Hle].
  - destruct (newUploadedFile_precheck req sd formID uploadLimit w Hgt)
      as (w1 & -> & _ & Hheap).
    split; [|done]. intros p b Hp. cbn [snd]. by rewrite Hheap.
  - rewrite newUploadedFile_ingest by lia.
    match goal with |- context [ingest _ _ _ _ ?w0] => set (w0' := w0) end.
    assert (Hh : heap w0' = heap w).
    { unfold w0'. by destruct (strconv.Atoi _).2. }
    split.
    + intros p b Hp. apply ingest_heap. by rewrite Hh.
    + intros u w' Hi. rewrite <- Hh. by apply ingest_fresh in Hi.
Qed.

Section Construction.

Variable describeBytes : Z -> string.

(** X1.  Whatever the request, the arguments and the outcome, a call of the
    [UploadedFile] constructor keeps the contents of every buffer that
    exists, and the buffer of an artifact it returns is a new one, that no
    artifact made before refers to: an upload cannot disturb another
    artifact. *)
Theorem constructor_keeps_existing_buffers req sd L w p b :
  heap w !! p = Some b ->
  heap (UploadedFileConstructor describeBytes req sd L w).2 !! p = Some b
  /\ forall u msg,
       (UploadedFileConstructor describeBytes req sd L w).1
       = Return [LUserData u; msg] ->
       buf u <> p
       /\ is_Some
            (heap (UploadedFileConstructor describeBytes req sd L w).2
               !! buf u).
Proof.
  intros Hp.
  remember (UploadedFileConstructor describeBytes req sd L w) as r eqn:Hr.
  unfold UploadedFileConstructor in Hr.
  destruct (String.eqb (ToString L 1) ""); [by subst r|].
  unfold bind at 1 in Hr. unfold ret at 1 in Hr.
  set (uploadLimit := if GetTop L =? 2 then _ else _) in Hr.
  unfold bind at 1 in Hr. unfold constructUploadedFile, bind at 1 in Hr.
  destruct (newUploadedFile_heap req sd (ToString L 1) uploadLimit w)
    as [Hkeep Hnew].
  specialize (Hkeep p b Hp).
  destruct (newUploadedFile req sd (ToString L 1) uploadLimit w)
    as [[[u0|e]| | |] w1]; cbn [snd] in Hkeep; subst r;
    (split; [exact Hkeep|]); try done.
  intros u msg [= <- _].
  destruct (Hnew u0 w1 eq_refl) as [Hfresh Hsome].
  split; [congruence|exact Hsome].
Qed.

End Construction.

Lemma receive_fields req0 sd fh file uploadLimit w u w' :
  receive req0 sd fh file uploadLimit w = (Return (inl u), w') ->
  req u = req0 /\ scriptdir u = sd /\ header u = multipart.Header fh
  /\ filename u = multipart.Filename fh.
Proof.
  unfold receive. destruct (make uploadLimit); [|done].
  destruct (copyLoop _ _ _ _) as [[s' [e|]]|]; [done| |done].
  destruct (bytes.Truncate _ _); [|done].
  unfold bind, alloc, ret. by intros [= <- _].
Qed.

(** How [ingest] can end with an error. *)
Lemma ingest_errors req sd formID uploadLimit w e w' :
  ingest req sd formID uploadLimit w = (Return (inr e), w') ->
  (exists n, uploadLimit < n /\ e = TooLargeStreamed n uploadLimit)
  \/ http.body req = inl e
  \/ (exists form fh rest,
        http.body req = inr form
        /\ multipart.Files form !! formID = Some (fh :: rest)
        /\ multipart.content fh = inr e).
Proof.
  unfold ingest, http.ParseMultipartForm, http.FormFile.
  destruct (http.body req) as [e0|form] eqn:Hb.
  { intros [= <- _]. by right; left. }
  destruct (multipart.Files form !! formID) as [[|fh rest]|] eqn:Hf;
    [done| |done].
  unfold multipart.Open. destruct (multipart.content fh) as [r|e0] eqn:Hc.
  - intros Hr.
    destruct (receive_outcome req sd fh r uploadLimit w)
      as [(u & w1 & Hr') | [(n & Hn & Hr') | (msg & Hr')]];
      rewrite Hr' in Hr; [done| |done].
    injection Hr as <- _. left. eauto.
  - intros [= <- _]. right; right. eauto 10.
Qed.

(** X2.  Every error that [newUploadedFile] returns is one of four: the
    precheck's too-large error, the streaming loop's too-large error (with
    a count above the limit), the error of the multipart parser, or the
    error of opening the form part.  An error reported by the byte source
    while it is read is never returned. *)
Theorem newUploadedFile_errors req sd formID uploadLimit w e w' :
  newUploadedFile req sd formID uploadLimit w = (Return (inr e), w') ->
  e = TooLargeDeclared (clientLength req) uploadLimit
  \/ (exists n, uploadLimit < n /\ e = TooLargeStreamed n uploadLimit)
  \/ http.body req = inl e
  \/ (exists form fh rest,
        http.body req = inr form
        /\ multipart.Files form !! formID = Some (fh :: rest)
        /\ multipart.content fh = inr e).
Proof.
  destruct (Z.lt_ge_cases uploadLimit (clientLength req)) as [Hgt|Hle].
  - destruct (newUploadedFile_precheck req sd formID uploadLimit w Hgt)
      as (w1 & -> & _). intros [= <- _]. by left.
  - rewrite newUploadedFile_ingest by lia. intros Hi.
    right. by apply ingest_errors in Hi.
Qed.

(** X3.  Construction always ends, in a return or in a run-time panic: the
    chunk loop stops on every source, since each pass that continues has
    consumed a full chunk. *)
Theorem newUploadedFile_ends req sd formID uploadLimit w :
  (exists r, (newUploadedFile req sd formID uploadLimit w).1 = Return r)
  \/ (exists msg,
        (newUploadedFile req sd formID uploadLimit w).1 = RuntimePanic msg).
Proof.
  destruct (Z.lt_ge_cases uploadLimit (clientLength req)) as [Hgt|Hle].
  - destruct (newUploadedFile_precheck req sd formID uploadLimit w Hgt)
      as (w1 & -> & _). left. eauto.
  - rewrite newUploadedFile_ingest by lia.
    match goal with |- context [ingest _ _ _ _ ?w0] => generalize w0 end.
    intros w0. unfold ingest.
    destruct (http.ParseMultipartForm _ _); [left; by eauto|].
    destruct (http.FormFile req formID) as [[file handler] err].
    destruct file as [| |r]; [right; by eauto| |].
    + destruct err; [left|right]; by eauto.
    + destruct err; [left; by eauto|].
      destruct handler as [fh|]; [|right; by eauto].
      destruct (receive_outcome req sd fh r uploadLimit w0)
        as [(u & w1 & ->) | [(n & Hn & ->) | (msg & ->)]];
        [left|left|right]; eauto.
Qed.

(** X4.  A declared length that parses and is not negative decides the
    precheck by itself: above the limit plus 20 the request is refused
    with the precheck's error and the world is left exactly as it was
    (nothing is logged, the form is not looked at); up to the limit plus
    20 the outcome is that of parsing and streaming. *)
Theorem precheck_on_declared_length req sd formID uploadLimit w n :
  strconv.Atoi (http.Get (http.Header req) "Content-Length") = (n, None) ->
  0 <= n ->
  (uploadLimit + 20 < n ->
   newUploadedFile req sd formID uploadLimit w =
     (Return (inr (TooLargeDeclared (n - 20) uploadLimit)), w))
  /\ (n <= uploadLimit + 20 ->
      newUploadedFile req sd formID uploadLimit w =
        ingest req sd formID uploadLimit w).
Proof.
  intros Hatoi Hn.
  assert (Hcl : clientLength req = n - 20).
  { unfold clientLength. rewrite Hatoi. cbn [fst]. apply wrap64_id.
    pose proof (Atoi_range (http.Get (http.Header req) "Content-Length")) as Hr.
    rewrite Hatoi in Hr. unfold in_int64, MinInt64, MaxInt64 in *.
    cbn [fst] in Hr. lia. }
  split; intros Hcmp.
  - unfold newUploadedFile. rewrite Hatoi. unfold bind, ret.
    fold (clientLength req) in Hcl.
    replace (wrap64 (n - 20)) with (n - 20)
      by (unfold clientLength in Hcl; rewrite Hatoi in Hcl; done).
    destruct (Z.gtb_spec (n - 20) uploadLimit); [done|lia].
  - rewrite newUploadedFile_ingest by lia. by rewrite Hatoi.
Qed.

(** X5.  After a successful construction [size()] returns a number between
    0 and the limit. *)
Theorem size_within_limit req sd formID uploadLimit w u w' :
  newUploadedFile req sd formID uploadLimit w = (Return (inl u), w') ->
  exists n, 0 <= n <= uploadLimit
    /\ forall L, UserData L 1 = Some u ->
         uploadedfileSize L w' = (Return [LNumber n], w').
Proof.
  intros Hnew.
  destruct (newUploadedFile_size_bound _ _ _ _ _ _ _ Hnew) as (b & Hb & Hle).
  exists (bytes.Len b). split; [unfold bytes.Len in *; lia|].
  intros L Hself. unfold uploadedfileSize.
  rewrite (checkUploadedFile_self _ _ Hself). unfold bind, ret, load. by rewrite Hb.
Qed.

(** X6.  Under a positive limit, an upload within the limit whose declared
    length passes the precheck is accepted, whatever its source reports at
    its end, and [size()] is the number of bytes the source delivered. *)
Theorem size_is_bytes_received
    req sd formID uploadLimit form fh rest d flt w :
  0 < uploadLimit ->
  clientLength req <= uploadLimit ->
  http.body req = inr form ->
  multipart.Files form !! formID = Some (fh :: rest) ->
  multipart.content fh = inl (mkReader d flt) ->
  bytes.Len d <= uploadLimit ->
  exists u w',
    newUploadedFile req sd formID uploadLimit w = (Return (inl u), w')
    /\ forall L, UserData L 1 = Some u ->
         uploadedfileSize L w' = (Return [LNumber (bytes.Len d)], w').
Proof.
  intros Hpos Hle Hb Hf Hc Hfit.
  destruct (newUploadedFile_within req sd formID uploadLimit form fh rest
              d flt w Hpos Hle Hb Hf Hc Hfit) as (u & w' & Hnew & Hbuf & _).
  exists u, w'. split; [done|].
  intros L Hself. unfold uploadedfileSize.
  rewrite (checkUploadedFile_self _ _ Hself). unfold bind, ret, load. rewrite Hbuf.
  unfold bytes.Len. by rewrite length_replicate.
Qed.

(** X7.  The artifact carries the metadata of the first form part under
    the field name: [filename()] returns the name the client sent and
    [mimetype()] the first Content-Type value of the part, or the empty
    string when the part has none; neither changes the world. *)
Theorem accessors_return_part_metadata
    req sd formID uploadLimit form fh rest w u w' :
  newUploadedFile req sd formID uploadLimit w = (Return (inl u), w') ->
  http.body req = inr form ->
  multipart.Files form !! formID = Some (fh :: rest) ->
  forall L w2, UserData L 1 = Some u ->
    uploadedfileName L w2 = (Return [LString (multipart.Filename fh)], w2)
    /\ uploadedfileMimeType L w2 =
         (Return [LString (match multipart.Header fh !! "Content-Type" with
                           | Some (c :: _) => c
                           | _ => ""
                           end)], w2).
Proof.
  intros Hnew Hb Hf.
  assert (Hfields : header u = multipart.Header fh
                    /\ filename u = multipart.Filename fh).
  { destruct (Z.lt_ge_cases uploadLimit (clientLength req)) as [Hgt|Hle].
    { destruct (newUploadedFile_precheck req sd formID uploadLimit w Hgt)
        as (w1 & Heq & _). congruence. }
    rewrite newUploadedFile_ingest in Hnew by lia.
    revert Hnew. unfold ingest, http.ParseMultipartForm, http.FormFile.
    rewrite Hb, Hf. unfold multipart.Open.
    destruct (multipart.content fh) as [r|e]; [|done].
    intros Hr. apply receive_fields in Hr. tauto. }
  destruct Hfields as [Hh Hn]. intros L w2 Hself.
  unfold uploadedfileName, uploadedfileMimeType.
  rewrite (checkUploadedFile_self _ _ Hself). unfold bind, ret. by rewrite Hh, Hn.
Qed.

Section ConstructorReturns.

Variable describeBytes : Z -> string.

Lemma UploadedFileConstructor_run req sd L w :
  ToString L 1 <> "" ->
  UploadedFileConstructor describeBytes req sd L w =
    (r <- newUploadedFile req sd (ToString L 1) (constructorLimit L) ;;
     match r with
     | inr err =>
         log_Error (Error describeBytes err) ;;;
         ret [LNil; LString (Error describeBytes err)]
     | inl u => ret [LUserData u; LString ""]
     end) w.
Proof.
  intros Hid. unfold UploadedFileConstructor, constructorLimit.
  destruct (String.eqb_spec (ToString L 1) ""); [done|].
  unfold constructUploadedFile, bind, ret.
  destruct (newUploadedFile _ _ _ _ w) as [[[u|e]| | |] w1]; reflexivity.
Qed.

(** X8.  A request body that does not parse as multipart form data, with a
    declared length that passes the precheck, makes the constructor return
    nil and the parser's message; the message is logged and no file is
    touched. *)
Theorem constructor_returns_parse_error req sd L w e :
  ToString L 1 <> "" ->
  clientLength req <= constructorLimit L ->
  http.body req = inl e ->
  exists w',
    UploadedFileConstructor describeBytes req sd L w =
      (Return [LNil; LString (Error describeBytes e)], w')
    /\ last (logs w') = Some (Error describeBytes e)
    /\ files w' = files w /\ heap w' = heap w.
Proof.
  intros Hid Hle Hb.
  rewrite UploadedFileConstructor_run by done. unfold bind at 1.
  rewrite newUploadedFile_ingest by done.
  rewrite (ingest_parse_error _ _ _ _ _ _ Hb).
  unfold bind, log_Error, ret. eexists. split; [reflexivity|].
  cbn [logs files heap]. rewrite last_snoc.
  by destruct (strconv.Atoi _).2.
Qed.

(** X9.  With a limit argument between 1 and 2^43 - 1 MiB, or with no limit
    argument (32 MiB), a form file larger than the limit makes the
    constructor return nil and a non-empty too-large message, whatever
    the Content-Length header says; no buffer is kept. *)
Theorem constructor_refuses_oversized
    req sd L w form fh rest d flt :
  ToString L 1 <> "" ->
  (GetTop L = 2 -> 0 < ToInt L 2 < 2 ^ 43) ->
  http.body req = inr form ->
  multipart.Files form !! ToString L 1 = Some (fh :: rest) ->
  multipart.content fh = inl (mkReader d flt) ->
  constructorLimit L < bytes.Len d ->
  exists e w',
    UploadedFileConstructor describeBytes req sd L w =
      (Return [LNil; LString (Error describeBytes e)], w')
    /\ isTooLarge e = true
    /\ Error describeBytes e <> ""
    /\ heap w' = heap w.
Proof.
  intros Hid Hk Hb Hf Hc Hbig.
  assert (Hpos : 0 < constructorLimit L).
  { unfold constructorLimit. destruct (Z.eqb_spec (GetTop L) 2) as [Htop|_].
    - specialize (Hk Htop).
      rewrite (wrap64_id (ToInt L 2))
        by (unfold in_int64, MinInt64, MaxInt64; lia).
      rewrite wrap64_id by (unfold in_int64, MinInt64, MaxInt64, MiB; lia).
      unfold MiB. lia.
    - reflexivity. }
  rewrite UploadedFileConstructor_run by done. unfold bind at 1.
  destruct (newUploadedFile_beyond req sd (ToString L 1) (constructorLimit L)
              form fh rest d flt w Hpos Hb Hf Hc Hbig)
    as (e & w1 & -> & Hlarge & Hfiles & Hheap).
  exists e. unfold bind, log_Error, ret. eexists. split; [reflexivity|].
  split; [done|]. split; [by apply Error_too_large_nonempty|]. done.
Qed.

End ConstructorReturns.

(** ** Saving *)

Section Saving.

Variable describeBytes : Z -> string.

(** X10.  [write] never changes a file that exists, whatever the
    destination, the state of the device and the outcome: every path that
    held a file before holds the same bytes afterwards. *)
Theorem write_keeps_existing_files ulf fullFilename w p c :
  files w !! p = Some c ->
  files (write describeBytes ulf fullFilename w).2 !! p = Some c.
Proof.
  intros Hp. unfold write, bind, os.Stat.
  destruct (files w !! fullFilename) eqn:Hdest; [done|].
  assert (Hne : fullFilename <> p) by congruence.
  unfold os.OpenFile.
  destruct (decide (fullFilename ∈ denied w)); [done|]. rewrite Hdest.
  unfold Copy, bind, load. cbn [heap].
  destruct (heap w !! buf ulf) as [[|x b]|];
    [by cbn; rewrite lookup_insert_ne| |by cbn; rewrite lookup_insert_ne].
  unfold os.Write, store, ret. cbn [files denied space logs heap fst snd].
  destruct (_ <? _)%nat; cbn;
    by rewrite !(lookup_insert_ne _ fullFilename p) by done.
Qed.

(** X11.  [write] touches nothing but its destination and its own buffer:
    every other path and every other buffer is as before, the set of
    paths that cannot be created is unchanged, and the free space never
    grows. *)
Theorem write_frame ulf fullFilename w :
  let w' := (write describeBytes ulf fullFilename w).2 in
  (forall p, p <> fullFilename -> files w' !! p = files w !! p)
  /\ (forall q, q <> buf ulf -> heap w' !! q = heap w !! q)
  /\ denied w' = denied w
  /\ (space w' <= space w)%nat.
Proof.
  intros w'. subst w'.
  remember (write describeBytes ulf fullFilename w) as r eqn:Hr.
  unfold write, bind, os.Stat in Hr.
  destruct (files w !! fullFilename) eqn:Hdest; [by subst r|].
  unfold os.OpenFile in Hr.
  destruct (decide (fullFilename ∈ denied w)); [by subst r|].
  rewrite Hdest in Hr. unfold Copy, bind, load in Hr. cbn [heap] in Hr.
  destruct (heap w !! buf ulf) as [[|x b]|].
  - subst r. cbn. repeat split; try done.
    intros p Hp. by rewrite lookup_insert_ne.
  - unfold os.Write, store, ret, log_Error in Hr.
    cbn [files denied space logs heap fst snd] in Hr.
    destruct (_ <? _)%nat; subst r; cbn [snd files heap denied space logged];
      (split; [|split; [|split]];
       [intros p Hp; by rewrite !(lookup_insert_ne _ fullFilename p) by done
       |intros q Hq; by rewrite lookup_insert_ne
       |done|lia]).
  - subst r. cbn. repeat split; try done.
    intros p Hp. by rewrite lookup_insert_ne.
Qed.

(** A destination that exists or cannot be created: [write] fails and
    changes nothing but the log. *)
Lemma write_refused ulf fullFilename w :
  is_Some (files w !! fullFilename) \/ fullFilename ∈ denied w ->
  exists e line,
    write describeBytes ulf fullFilename w = (Return (Some e), logged line w).
Proof.
  intros Href. unfold write, bind, os.Stat.
  destruct (files w !! fullFilename) eqn:Hdest.
  { eexists _, _. reflexivity. }
  destruct Href as [[c Hc]|Hden]; [done|].
  unfold os.OpenFile. rewrite decide_True by done.
  eexists _, _. reflexivity.
Qed.

(** X12.  A save that is refused because its destination exists or cannot
    be created returns false and keeps the artifact whole: the file system
    and the buffer are unchanged, and a following save of the same
    artifact to a fresh path that can be created returns true and writes
    every byte of the buffer. *)
Theorem refused_save_keeps_buffer L ulf b w :
  UserData L 1 = Some ulf ->
  let dest := saveFilename ulf (if GetTop L =? 2 then ToString L 2 else "") in
  is_Some (files w !! dest) \/ dest ∈ denied w ->
  heap w !! buf ulf = Some b ->
  exists w1,
    uploadedfileSave describeBytes L w = (Return [LBool false], w1)
    /\ files w1 = files w /\ heap w1 = heap w /\ space w1 = space w
    /\ forall L', UserData L' 1 = Some ulf ->
         let dest' :=
           saveFilename ulf (if GetTop L' =? 2 then ToString L' 2 else "") in
         files w1 !! dest' = None ->
         dest' ∉ denied w1 ->
         (length b <= space w1)%nat ->
         exists w2,
           uploadedfileSave describeBytes L' w1 = (Return [LBool true], w2)
           /\ files w2 !! dest' = Some b.
Proof.
  intros Hself dest Href Hbuf.
  destruct (write_refused ulf dest w Href) as (e & line & Hw).
  exists (logged line w). split.
  { rewrite (uploadedfileSave_write _ _ _ _ Hself). unfold bind at 1.
    fold dest. rewrite Hw. reflexivity. }
  repeat split; try done.
  intros L' Hself' dest' Hfresh Hperm Hroom.
  eexists. split.
  - rewrite (uploadedfileSave_write _ _ _ _ Hself'). unfold bind at 1.
    fold dest'. by rewrite (write_fresh describeBytes ulf dest' b).
  - cbn [files]. apply lookup_insert_eq.
Qed.

(** A device with less room than the buffer needs: the write is short. *)
Lemma write_short ulf fullFilename b w :
  files w !! fullFilename = None ->
  fullFilename ∉ denied w ->
  heap w !! buf ulf = Some b ->
  (space w < length b)%nat ->
  write describeBytes ulf fullFilename w =
    (Return (Some (Foreign "no space left on device")),
     mkWorld (<[fullFilename := take (space w) b]> (files w)) (denied w)
       0%nat (logs w ++ ["Error when writing: no space left on device"])
       (<[buf ulf := drop (space w) b]> (heap w))).
Proof.
  intros Hfresh Hperm Hbuf Hroom.
  unfold write, bind, os.Stat, os.OpenFile. rewrite Hfresh.
  rewrite decide_False by done. rewrite Hfresh.
  unfold Copy, bind, load. cbn [heap]. rewrite Hbuf.
  destruct b as [|x b]; [simpl in Hroom; lia|].
  unfold os.Write, store, ret. cbn [files denied space logs heap fst snd].
  rewrite lookup_insert_eq. cbn [default].
  rewrite Nat.min_r by lia.
  destruct (Nat.ltb_spec (space w) (length (x :: b))); [|lia].
  cbn [snd bind]. unfold log_Error.
  cbn [files denied space logs heap].
  unfold id. rewrite insert_insert_eq, drop_nil, app_nil_r, Nat.sub_diag.
  reflexivity.
Qed.

(** X13.  On a device with less room than the buffer needs, a save to a
    fresh path returns false and leaves a partial file: the file holds
    the bytes that fitted, the buffer keeps the rest (file then buffer is
    the original content), and a second save to the same path is refused,
    so the partial file stays as it is. *)
Theorem short_write_leaves_partial_file L ulf b w :
  UserData L 1 = Some ulf ->
  let dest := saveFilename ulf (if GetTop L =? 2 then ToString L 2 else "") in
  files w !! dest = None ->
  dest ∉ denied w ->
  heap w !! buf ulf = Some b ->
  (space w < length b)%nat ->
  exists w1 w2 written rest,
    uploadedfileSave describeBytes L w = (Return [LBool false], w1)
    /\ files w1 !! dest = Some written
    /\ heap w1 !! buf ulf = Some rest
    /\ written ++ rest = b
    /\ length written = space w
    /\ uploadedfileSave describeBytes L w1 = (Return [LBool false], w2)
    /\ files w2 = files w1 /\ heap w2 = heap w1.
Proof.
  intros Hself dest Hfresh Hperm Hbuf Hroom.
  eexists _, _, (take (space w) b), (drop (space w) b). split.
  { rewrite (uploadedfileSave_write _ _ _ _ Hself). unfold bind at 1.
    fold dest. rewrite (write_short ulf dest b w) by done. reflexivity. }
  cbn [files heap]. rewrite !lookup_insert_eq.
  split; [done|]. split; [done|]. split; [apply take_drop|].
  split; [rewrite length_take; lia|]. split.
  { rewrite (uploadedfileSave_write _ _ _ _ Hself). unfold bind at 1.
    fold dest. erewrite write_existing; [reflexivity|].
    cbn [files]. apply lookup_insert_eq. }
  done.
Qed.

End Saving.

(** * The REPL's highlighting *)

(** ** Strings *)

Lemma sapp_nil_l (b : string) : "" +:+ b = b.
Proof. reflexivity. Qed.

Lemma sapp_cons x (a b : string) : String x a +:+ b = String x (a +:+ b).
Proof. reflexivity. Qed.

Lemma sapp_assoc (a b c : string) : (a +:+ b) +:+ c = a +:+ (b +:+ c).
Proof.
  induction a as [|x a IH]; [done|]. rewrite !sapp_cons. f_equal. exact IH.
Qed.

Lemma sapp_nil_r (a : string) : a +:+ "" = a.
Proof.
  induction a as [|x a IH]; [done|]. rewrite sapp_cons. f_equal. exact IH.
Qed.

Local Ltac sapp := rewrite ?sapp_cons, ?sapp_nil_l.

Lemma before_after n : forall s,
  strings.before n s +:+ strings.after n s = s.
Proof.
  induction n as [|n IH]; intros [|c s]; simpl; sapp; try done.
  f_equal. apply IH.
Qed.

Lemma HasPrefix_nil s : strings.HasPrefix s "" = true.
Proof. by destruct s. Qed.

Lemma HasPrefix_refl p : forall s, strings.HasPrefix (p +:+ s) p = true.
Proof.
  induction p as [|x p IH]; intros s; [apply HasPrefix_nil|].
  rewrite sapp_cons. simpl. by rewrite Ascii.eqb_refl, IH.
Qed.

Lemma HasPrefix_split p : forall s,
  strings.HasPrefix s p = true ->
  s = p +:+ strings.after (String.length p) s.
Proof.
  induction p as [|x p IH]; intros [|c s]; simpl; try done.
  destruct (Ascii.eqb_spec c x) as [->|]; [|done]. simpl.
  intros Hp. sapp. f_equal. exact (IH s Hp).
Qed.

Lemma HasPrefix_before p : forall k s,
  strings.HasPrefix (strings.before k s) p = true ->
  strings.HasPrefix s p = true.
Proof.
  induction p as [|x p IH]; intros k s; [intros _; apply HasPrefix_nil|].
  destruct k as [|k], s as [|c s]; simpl; try done.
  destruct (Ascii.eqb c x); [|done]. simpl. apply IH.
Qed.

(** [Index] finds an instance of the separator. *)
Lemma Index_split sep : forall s m,
  strings.Index s sep = Some m ->
  s = strings.before m s +:+ sep
      +:+ strings.after (m + String.length sep) s.
Proof.
  induction s as [|c s IH]; intros m.
  - destruct sep; simpl; [|done]. by intros [= <-].
  - cbn [strings.Index].
    destruct (strings.HasPrefix (String c s) sep) eqn:Hp.
    + intros [= <-]. simpl. sapp. by apply HasPrefix_split.
    + destruct (strings.Index s sep) as [m'|] eqn:Hi; [|done].
      intros [= <-]. simpl. sapp. f_equal. exact (IH m' eq_refl).
Qed.

(** The instance [Index] finds is the first one. *)
Lemma Index_first sep : sep <> "" -> forall s m,
  strings.Index s sep = Some m ->
  strings.Index (strings.before m s) sep = None.
Proof.
  intros Hsep. induction s as [|c s IH]; intros m.
  - by destruct sep.
  - cbn [strings.Index].
    destruct (strings.HasPrefix (String c s) sep) eqn:Hp.
    + intros [= <-]. simpl. by destruct sep.
    + destruct (strings.Index s sep) as [m'|] eqn:Hi; [|done].
      intros [= <-]. cbn [strings.before strings.Index].
      destruct (strings.HasPrefix (String c (strings.before m' s)) sep)
        eqn:Hp'.
      * apply (HasPrefix_before sep (S m') (String c s)) in Hp'. congruence.
      * by rewrite (IH m' eq_refl).
Qed.

Lemma SplitN2_found s sep m :
  sep <> "" ->
  strings.Index s sep = Some m ->
  strings.SplitN2 s sep =
    [strings.before m s; strings.after (m + String.length sep) s].
Proof. intros Hsep Hi. unfold strings.SplitN2. rewrite Hi. by destruct sep. Qed.

(** Replacing a string by itself changes nothing. *)
Lemma replaceFrom_same old : old <> "" -> forall s k,
  strings.replaceFrom k s old old = strings.after k s.
Proof.
  intros Hold. induction s as [|c s IH]; intros k.
  - by destruct k.
  - cbn [strings.replaceFrom strings.after].
    destruct k as [|k]; [|apply IH].
    destruct (strings.HasPrefix (String c s) old) eqn:Hp.
    + rewrite IH. apply HasPrefix_split in Hp.
      destruct old as [|x old]; [done|].
      etrans; [|symmetry; exact Hp].
      cbn [String.length strings.after].
      by replace (S (String.length old) - 1)%nat with (String.length old)
        by lia.
    + by rewrite IH.
Qed.

Lemma Replace_same s old : old <> "" -> strings.Replace s old old = s.
Proof.
  intros Hold. unfold strings.Replace.
  destruct old; [done|]. by rewrite replaceFrom_same.
Qed.

(** ** colorSplit *)

(** X14.  With a separator that is not empty, [colorSplit] panics exactly
    when the line holds the separator and [colorFunc2] is given without
    [colorFuncSep]. *)
Theorem colorSplit_panics line sep colorFunc1 colorFuncSep colorFunc2 reverse :
  sep <> "" ->
  colorSplit line sep colorFunc1 colorFuncSep colorFunc2 reverse = None
  <-> strings.Contains line sep = true
      /\ is_Some colorFunc2 /\ colorFuncSep = None.
Proof.
  intros Hsep. unfold colorSplit, strings.Contains.
  destruct (strings.Index line sep) as [m|] eqn:Hi.
  - rewrite (SplitN2_found _ _ _ Hsep Hi). unfold index. simpl.
    destruct colorFunc2 as [c2|], colorFuncSep as [cs|]; simpl;
      split; try done; try (intros (_ & [? ?] & ?); done).
  - destruct reverse; split; try done; by intros [? _].
Qed.

(** X15.  Without colour functions for the two parts, and with a separator
    that is not empty, [colorSplit] loses nothing: the two parts, one
    after the other, are the line.  When the line holds the separator the
    cut is at its first instance: the first part holds no separator and
    the second part starts with it; a colour for the separator is not
    applied. *)
Theorem colorSplit_lossless line sep colorFuncSep reverse :
  sep <> "" ->
  exists s1 s2,
    colorSplit line sep None colorFuncSep None reverse = Some (s1, s2)
    /\ s1 +:+ s2 = line
    /\ (strings.Contains line sep = true ->
        strings.Contains s1 sep = false
        /\ strings.HasPrefix s2 sep = true).
Proof.
  intros Hsep. unfold colorSplit, strings.Contains.
  destruct (strings.Index line sep) as [m|] eqn:Hi.
  - rewrite (SplitN2_found _ _ _ Hsep Hi). unfold index. simpl.
    eexists _, _. split; [reflexivity|]. split.
    + symmetry. by apply Index_split.
    + intros _. rewrite (Index_first sep Hsep line m Hi). split; [done|].
      apply HasPrefix_refl.
  - destruct reverse; eexists _, _; (split; [reflexivity|]);
      (split; [first [apply sapp_nil_r | reflexivity]|done]).
Qed.

(** With plain colours the parts still make up the line. *)
Lemma colorSplit_plain line sep colorFunc1 colorFuncSep colorFunc2 reverse :
  sep <> "" ->
  plainColour colorFunc1 -> plainColour colorFuncSep ->
  plainColour colorFunc2 ->
  (is_Some colorFunc2 -> is_Some colorFuncSep) ->
  exists s1 s2,
    colorSplit line sep colorFunc1 colorFuncSep colorFunc2 reverse
      = Some (s1, s2)
    /\ s1 +:+ s2 = line.
Proof.
  intros Hsep H1 Hs H2 Hboth. unfold colorSplit, strings.Contains.
  destruct (strings.Index line sep) as [m|] eqn:Hi.
  - rewrite (SplitN2_found _ _ _ Hsep Hi). unfold index. simpl.
    pose proof (Index_split sep line m Hi) as Hline.
    destruct colorFunc2 as [c2|].
    + destruct colorFuncSep as [cs|]; [|by destruct Hboth; eauto].
      simpl. eexists _, _. split; [reflexivity|].
      rewrite (Hs cs eq_refl), (H2 c2 eq_refl).
      destruct colorFunc1 as [c1|]; [rewrite (H1 c1 eq_refl)|]; done.
    + simpl. eexists _, _. split; [reflexivity|].
      destruct colorFunc1 as [c1|]; [rewrite (H1 c1 eq_refl)|]; done.
  - destruct reverse; eexists _, _; (split; [reflexivity|]);
      first [apply sapp_nil_r | reflexivity].
Qed.

(** ** highlight *)

(** X16.  [highlight] never panics: every call of [colorSplit] it makes
    has a separator that is not empty and a colour for it, and the fields
    it indexes exist. *)
Theorem highlight_returns o line : is_Some (highlight o line).
Proof.
  unfold highlight.
  destruct (colorSplit line "//" None (Some (DarkGray o))
              (Some (DarkGray o)) false) as [[u1 comment]|] eqn:H1;
    [|apply colorSplit_panics in H1 as (_ & _ & ?); done].
  cbn [mbind option_bind].
  destruct (colorSplit u1 ":" (Some (LightGreen o)) (Some (DarkRed o))
              None true) as [[module u2]|] eqn:H2;
    [|apply colorSplit_panics in H2 as (_ & [? ?] & _); done].
  cbn [mbind option_bind].
  assert (Hf : is_Some
    (if negb (String.eqb u2 "") && strings.Contains u2 "("
     then
       f0 ← index (strings.SplitN2 u2 "(") 0;
       f1 ← index (strings.SplitN2 u2 "(") 1;
       Some (LightGreen o f0, "(" +:+ f1)
     else Some ("", u2))).
  { destruct (negb _); cbn [andb]; [|by eauto].
    unfold strings.Contains.
    destruct (strings.Index u2 "(") as [m|] eqn:Hi; [|by eauto].
    rewrite (SplitN2_found u2 "(" m ltac:(done) Hi). simpl. eauto. }
  destruct Hf as [[function u3] ->]. cbn [mbind option_bind].
  destruct (colorSplit u3 "->" None (Some (LightBlue o)) (Some (DarkRed o))
              false) as [[u4 typed]|] eqn:H4;
    [|apply colorSplit_panics in H4 as (_ & _ & ?); done].
  cbn [mbind option_bind]. eauto.
Qed.

(** X17.  With colouring off (every colour method returns its text as it
    is) [highlight] returns the line unchanged: no character is lost,
    added or moved. *)
Theorem highlight_plain o line :
  (forall s, DarkGray o s = s) -> (forall s, LightGreen o s = s) ->
  (forall s, DarkRed o s = s) -> (forall s, LightBlue o s = s) ->
  (forall s, LightYellow o s = s) -> (forall s, LightCyan o s = s) ->
  highlight o line = Some line.
Proof.
  intros Hgray Hgreen Hred Hblue Hyellow Hcyan.
  assert (Hplain : forall f : string -> string,
            (forall s, f s = s) -> plainColour (Some f)).
  { intros f Hf g [= <-]. exact Hf. }
  assert (Hnil : plainColour None) by (intros g; done).
  unfold highlight.
  destruct (colorSplit_plain line "//" None (Some (DarkGray o))
              (Some (DarkGray o)) false) as (u1 & comment & -> & Hl1);
    auto; try done.
  cbn [mbind option_bind].
  destruct (colorSplit_plain u1 ":" (Some (LightGreen o)) (Some (DarkRed o))
              None true) as (module & u2 & -> & Hl2); auto; try done.
  cbn [mbind option_bind].
  assert (Hf : exists function u3,
    (if negb (String.eqb u2 "") && strings.Contains u2 "("
     then
       f0 ← index (strings.SplitN2 u2 "(") 0;
       f1 ← index (strings.SplitN2 u2 "(") 1;
       Some (LightGreen o f0, "(" +:+ f1)
     else Some ("", u2)) = Some (function, u3)
    /\ function +:+ u3 = u2).
  { destruct (negb _); cbn [andb]; [|by eauto].
    unfold strings.Contains.
    destruct (strings.Index u2 "(") as [m|] eqn:Hi; [|by eauto].
    rewrite (SplitN2_found u2 "(" m ltac:(done) Hi). simpl.
    eexists _, _. split; [reflexivity|]. rewrite Hgreen.
    symmetry. exact (Index_split "(" u2 m Hi). }
  destruct Hf as (function & u3 & -> & Hl3). cbn [mbind option_bind].
  destruct (colorSplit_plain u3 "->" None (Some (LightBlue o))
              (Some (DarkRed o)) false) as (u4 & typed & -> & Hl4);
    auto; try done.
  cbn [mbind option_bind].
  rewrite Hblue, Hyellow, Hcyan, !Replace_same by done.
  f_equal. rewrite <- Hl1, <- Hl2, <- Hl3, <- Hl4.
  by rewrite !sapp_assoc.
Qed.

(** * Command line arguments *)

(** The value [Atoi] returns beside an error is 0 or a bound of [int]. *)
Lemma Atoi_error_value s e :
  (strconv.Atoi s).2 = Some e ->
  (strconv.Atoi s).1 = 0 \/ (strconv.Atoi s).1 = MaxInt64
  \/ (strconv.Atoi s).1 = MinInt64.
Proof.
  unfold strconv.Atoi. destruct s as [|c rest]; [by left|].
  destruct (strconv.ParseUint _) as [un| |].
  - destruct (negb _ && _); [by right; left|].
    destruct (_ && _); [by right; right|done].
  - by left.
  - destruct (c =? "-")%char; [by right; right|by right; left].
Qed.

(** X18.  A sixth positional argument that is a well-formed database
    index is not used: [REDIS_DB] keeps the value the flag parser left,
    since the assignment is made under [err != nil]. *)
Theorem handleFlags_dbindex_not_applied Args g a n :
  Args !! 5%nat = Some a ->
  strconv.Atoi a = (n, None) ->
  REDIS_DB (handleFlags Args g) = REDIS_DB g.
Proof.
  intros Ha Hn. unfold handleFlags. cbn [REDIS_DB]. by rewrite Ha, Hn.
Qed.

(** X19.  Whatever the positional arguments are, [handleFlags] leaves
    [REDIS_DB] as the flag parser set it or sets it to 0 or to a bound of
    [int]: no other index can be chosen by position. *)
Theorem handleFlags_dbindex_values Args g :
  REDIS_DB (handleFlags Args g) = REDIS_DB g
  \/ REDIS_DB (handleFlags Args g) = 0
  \/ REDIS_DB (handleFlags Args g) = MaxInt64
  \/ REDIS_DB (handleFlags Args g) = MinInt64.
Proof.
  unfold handleFlags. cbn [REDIS_DB].
  destruct (Args !! 5%nat) as [a|]; [|by left].
  pose proof (Atoi_error_value a) as Hv.
  destruct (strconv.Atoi a) as [dbindex [e|]]; [|by left].
  right. exact (Hv e eq_refl).
Qed.

(** X20.  Positional arguments after the sixth are not looked at. *)
Theorem handleFlags_first_six Args g :
  handleFlags (take 6 Args) g = handleFlags Args g.
Proof.
  unfold handleFlags. by rewrite !lookup_take_lt by lia.
Qed.

(** X21.  With five positional arguments or more, the flags [-dir],
    [-addr], [-cert], [-key] and [-redis] are without effect: two parses
    that differ in these five variables only end in the same
    configuration, which holds the positional values. *)
Theorem handleFlags_positional_over_flags Args g1 g2 :
  (5 <= length Args)%nat ->
  SERVER_CONFIGURATION_FILENAMES g1 = SERVER_CONFIGURATION_FILENAMES g2 ->
  SERVER_CONF_SCRIPT g1 = SERVER_CONF_SCRIPT g2 ->
  SERVER_HTTP2_LOG g1 = SERVER_HTTP2_LOG g2 ->
  REDIS_DB g1 = REDIS_DB g2 ->
  handleFlags Args g1 = handleFlags Args g2
  /\ Some (SERVER_DIR (handleFlags Args g1)) = Args !! 0%nat
  /\ Some (SERVER_ADDR (handleFlags Args g1)) = Args !! 1%nat
  /\ Some (SERVER_CERT (handleFlags Args g1)) = Args !! 2%nat
  /\ Some (SERVER_KEY (handleFlags Args g1)) = Args !! 3%nat
  /\ Some (REDIS_ADDR (handleFlags Args g1)) = Args !! 4%nat.
Proof.
  intros Hlen Hf Hc Hh Hd. unfold handleFlags.
  destruct Args as [|a0 [|a1 [|a2 [|a3 [|a4 rest]]]]];
    try (simpl in Hlen; lia).
  cbn [lookup list_lookup SERVER_DIR SERVER_ADDR SERVER_CERT SERVER_KEY
       REDIS_ADDR].
  by rewrite Hf, Hc, Hh, Hd.
Qed.

(** * Calls with a wrong first argument *)

Section WrongArguments.

Variable describeBytes : Z -> string.

(** X22.  A method called on a first argument that holds no UploadedFile
    raises a Lua argument error and leaves the world as it was (no file is
    created, nothing is logged, no buffer is read): for a userdata with
    another value the error is [UploadedFile expected], for an argument
    that is no userdata it is the type error of [CheckUserData], which
    names the type found. *)
Theorem methods_need_self L w :
  UserData L 1 = None ->
  let msg := match ArgType L 1 with
             | LTUserData => "UploadedFile expected"
             | t => "userdata expected, got " +:+ typeName t
             end in
  uploadedfileName L w = (LuaRaise msg, w)
  /\ uploadedfileSize L w = (LuaRaise msg, w)
  /\ uploadedfileMimeType L w = (LuaRaise msg, w)
  /\ uploadedfileSave describeBytes L w = (LuaRaise msg, w)
  /\ uploadedfileSaveIn describeBytes L w = (LuaRaise msg, w).
Proof.
  intros Hself msg. subst msg.
  unfold uploadedfileName, uploadedfileSize, uploadedfileMimeType,
    uploadedfileSave, uploadedfileSaveIn, checkUploadedFile, CheckUserData,
    bind.
  rewrite Hself. by destruct (ArgType L 1).
Qed.

(** X23.  The constructor called with an empty form ID raises the Lua
    argument error before the request is looked at: whatever the request,
    the limit argument and the number of arguments, nothing is parsed,
    logged or allocated. *)
Theorem constructor_needs_form_id req sd L w :
  ToString L 1 = "" ->
  UploadedFileConstructor describeBytes req sd L w
  = (LuaRaise "form ID expected", w).
Proof.
  intros Hid. unfold UploadedFileConstructor, bind. by rewrite Hid.
Qed.

End WrongArguments.

(** * The further properties on sample inputs *)

(** X1 at the sample store, whose buffer 1 holds two bytes, and the call
    [UploadedFile("file", 1)]. *)
Lemma constructor_keeps_existing_buffers_witness :
  heap (UploadedFileConstructor sampleDescribe
          (sampleRequest None ["A"]%byte None) "/srv"
          (sampleCall 2 "" 1 None) sampleStore).2 !! 1%positive
  = Some ["A"; "B"]%byte
  /\ forall u msg,
       (UploadedFileConstructor sampleDescribe
          (sampleRequest None ["A"]%byte None) "/srv"
          (sampleCall 2 "" 1 None) sampleStore).1
       = Return [LUserData u; msg] ->
       buf u <> 1%positive
       /\ is_Some
            (heap (UploadedFileConstructor sampleDescribe
                     (sampleRequest None ["A"]%byte None) "/srv"
                     (sampleCall 2 "" 1 None) sampleStore).2 !! buf u).
Proof.
  apply (constructor_keeps_existing_buffers sampleDescribe
           (sampleRequest None ["A"]%byte None) "/srv"
           (sampleCall 2 "" 1 None) sampleStore 1%positive
           ["A"; "B"]%byte).
  reflexivity.
Defined.

(** X2 at five bytes under a limit of 4, without a declared length. *)
Lemma newUploadedFile_errors_witness :
  TooLargeStreamed 5 4
  = TooLargeDeclared
      (clientLength (sampleRequest None ["A"; "B"; "C"; "D"; "E"]%byte None))
      4
  \/ (exists n, 4 < n /\ TooLargeStreamed 5 4 = TooLargeStreamed n 4)
  \/ http.body (sampleRequest None ["A"; "B"; "C"; "D"; "E"]%byte None)
     = inl (TooLargeStreamed 5 4)
  \/ (exists form fh rest,
        http.body (sampleRequest None ["A"; "B"; "C"; "D"; "E"]%byte None)
        = inr form
        /\ multipart.Files form !! "file" = Some (fh :: rest)
        /\ multipart.content fh = inr (TooLargeStreamed 5 4)).
Proof.
  apply (newUploadedFile_errors
           (sampleRequest None ["A"; "B"; "C"; "D"; "E"]%byte None)
           "/srv" "file" 4 emptyWorld (TooLargeStreamed 5 4)
           (logged "Invalid Content-Length: " emptyWorld)).
  vm_compute. reflexivity.
Defined.

(** X4 at a declared length of 100 under a limit of 4. *)
Lemma precheck_on_declared_length_witness :
  (4 + 20 < 100 ->
   newUploadedFile (sampleRequest (Some "100") ["A"]%byte None) "/srv"
     "file" 4 emptyWorld
   = (Return (inr (TooLargeDeclared (100 - 20) 4)), emptyWorld))
  /\ (100 <= 4 + 20 ->
      newUploadedFile (sampleRequest (Some "100") ["A"]%byte None) "/srv"
        "file" 4 emptyWorld
      = ingest (sampleRequest (Some "100") ["A"]%byte None) "/srv" "file" 4
          emptyWorld).
Proof.
  apply (precheck_on_declared_length
           (sampleRequest (Some "100") ["A"]%byte None) "/srv" "file" 4
           emptyWorld 100).
  - reflexivity.
  - lia.
Defined.

(** X5 at one byte under a limit of 4. *)
Lemma size_within_limit_witness :
  exists n, 0 <= n <= 4
    /\ forall L, UserData L 1 = Some sampleReceived ->
         uploadedfileSize L sampleAfter = (Return [LNumber n], sampleAfter).
Proof.
  apply (size_within_limit (sampleRequest None ["A"]%byte None) "/srv"
           "file" 4 emptyWorld sampleReceived sampleAfter).
  vm_compute. reflexivity.
Defined.

(** X6 at one byte under a limit of 4, the source ending in an error. *)
Lemma size_is_bytes_received_witness :
  exists u w',
    newUploadedFile (sampleRequest None ["A"]%byte (Some (Foreign "reset")))
      "/srv" "file" 4 emptyWorld
    = (Return (inl u), w')
    /\ forall L, UserData L 1 = Some u ->
         uploadedfileSize L w'
         = (Return [LNumber (bytes.Len ["A"]%byte)], w').
Proof.
  apply (size_is_bytes_received
           (sampleRequest None ["A"]%byte (Some (Foreign "reset")))
           "/srv" "file" 4
           (multipart.mkForm
              {[ "file" := [samplePart ["A"]%byte (Some (Foreign "reset"))] ]})
           (samplePart ["A"]%byte (Some (Foreign "reset"))) []
           ["A"]%byte (Some (Foreign "reset")) emptyWorld).
  - lia.
  - vm_compute. discriminate.
  - reflexivity.
  - reflexivity.
  - reflexivity.
  - vm_compute. discriminate.
Defined.

(** X7 at the sample part: the name [a.txt] and the type [text/plain]. *)
Lemma accessors_return_part_metadata_witness :
  uploadedfileName (sampleCall 1 "" 0 (Some sampleReceived)) sampleAfter
  = (Return [LString "a.txt"], sampleAfter)
  /\ uploadedfileMimeType (sampleCall 1 "" 0 (Some sampleReceived))
       sampleAfter
     = (Return [LString "text/plain"], sampleAfter).
Proof.
  apply (accessors_return_part_metadata
           (sampleRequest None ["A"]%byte None) "/srv" "file" 4
           (multipart.mkForm {[ "file" := [samplePart ["A"]%byte None] ]})
           (samplePart ["A"]%byte None) [] emptyWorld
           sampleReceived sampleAfter).
  - vm_compute. reflexivity.
  - reflexivity.
  - reflexivity.
  - reflexivity.
Defined.

(** X8 at a request that is not multipart form data. *)
Lemma constructor_returns_parse_error_witness :
  exists w',
    UploadedFileConstructor sampleDescribe sampleBadRequest "/srv"
      (sampleCall 1 "" 0 None) emptyWorld
    = (Return
         [LNil; LString "request Content-Type isn't multipart/form-data"],
       w')
    /\ last (logs w')
       = Some "request Content-Type isn't multipart/form-data"
    /\ files w' = files emptyWorld /\ heap w' = heap emptyWorld.
Proof.
  apply (constructor_returns_parse_error sampleDescribe sampleBadRequest
           "/srv" (sampleCall 1 "" 0 None) emptyWorld
           (Foreign "request Content-Type isn't multipart/form-data")).
  - discriminate.
  - vm_compute. discriminate.
  - reflexivity.
Defined.

(** X9 at the call [UploadedFile("file", 1)] on a body of 1 MiB and one
    byte. *)
Lemma constructor_refuses_oversized_witness :
  exists e w',
    UploadedFileConstructor sampleDescribe
      (sampleRequest None sampleBigBody None) "/srv"
      (sampleCall 2 "" 1 None) emptyWorld
    = (Return [LNil; LString (Error sampleDescribe e)], w')
    /\ isTooLarge e = true
    /\ Error sampleDescribe e <> ""
    /\ heap w' = heap emptyWorld.
Proof.
  apply (constructor_refuses_oversized sampleDescribe
           (sampleRequest None sampleBigBody None) "/srv"
           (sampleCall 2 "" 1 None) emptyWorld
           (multipart.mkForm {[ "file" := [samplePart sampleBigBody None] ]})
           (samplePart sampleBigBody None) [] sampleBigBody None).
  - discriminate.
  - intros _. cbn [ToInt sampleCall]. lia.
  - reflexivity.
  - apply lookup_singleton_eq.
  - reflexivity.
  - unfold sampleBigBody, bytes.Len. rewrite length_replicate.
    rewrite Z2Nat.id by (unfold MiB; lia). vm_compute. reflexivity.
Defined.

(** X10 at the occupied store: a save under the same name and a save
    under another name both leave [/srv/a.txt] as it was. *)
Lemma write_keeps_existing_files_witness :
  files (write sampleDescribe sampleArtifact "/srv/a.txt" sampleOccupied).2
    !! "/srv/a.txt" = Some ["Z"]%byte
  /\ files (write sampleDescribe sampleArtifact "/srv/b.txt" sampleOccupied).2
       !! "/srv/a.txt" = Some ["Z"]%byte.
Proof.
  split.
  - apply (write_keeps_existing_files sampleDescribe sampleArtifact
             "/srv/a.txt" sampleOccupied "/srv/a.txt" ["Z"]%byte).
    reflexivity.
  - apply (write_keeps_existing_files sampleDescribe sampleArtifact
             "/srv/b.txt" sampleOccupied "/srv/a.txt" ["Z"]%byte).
    reflexivity.
Defined.

(** X12 at the occupied store: the save as [a.txt] is refused, the save as
    [b.txt] that follows writes both bytes. *)
Lemma refused_save_keeps_buffer_witness :
  exists w1 w2,
    uploadedfileSave sampleDescribe
      (sampleCall 1 "" 0 (Some sampleArtifact)) sampleOccupied
    = (Return [LBool false], w1)
    /\ heap w1 = heap sampleOccupied
    /\ uploadedfileSave sampleDescribe
         (sampleCall 2 "b.txt" 0 (Some sampleArtifact)) w1
       = (Return [LBool true], w2)
    /\ files w2 !! "/srv/b.txt" = Some ["A"; "B"]%byte.
Proof.
  destruct (refused_save_keeps_buffer sampleDescribe
              (sampleCall 1 "" 0 (Some sampleArtifact)) sampleArtifact
              ["A"; "B"]%byte sampleOccupied)
    as (w1 & Hfirst & Hfiles & Hheap & Hspace & Hnext).
  - reflexivity.
  - left. exists ["Z"]%byte. reflexivity.
  - reflexivity.
  - destruct (Hnext (sampleCall 2 "b.txt" 0 (Some sampleArtifact)))
      as (w2 & Hsecond & Hwritten).
    + reflexivity.
    + rewrite Hfiles. reflexivity.
    + replace (denied w1) with (denied sampleOccupied).
      * apply not_elem_of_empty.
      * revert Hfirst. vm_compute. intros [= <-]. reflexivity.
    + rewrite Hspace. simpl. lia.
    + exists w1, w2. split; [exact Hfirst|]. split; [exact Hheap|].
      split; [exact Hsecond|exact Hwritten].
Defined.

(** X13 at the store with room for one byte. *)
Lemma short_write_leaves_partial_file_witness :
  exists w1 w2 written rest,
    uploadedfileSave sampleDescribe
      (sampleCall 1 "" 0 (Some sampleArtifact)) sampleFullStore
    = (Return [LBool false], w1)
    /\ files w1 !! "/srv/a.txt" = Some written
    /\ heap w1 !! 1%positive = Some rest
    /\ written ++ rest = ["A"; "B"]%byte
    /\ length written = 1%nat
    /\ uploadedfileSave sampleDescribe
         (sampleCall 1 "" 0 (Some sampleArtifact)) w1
       = (Return [LBool false], w2)
    /\ files w2 = files w1 /\ heap w2 = heap w1.
Proof.
  apply (short_write_leaves_partial_file sampleDescribe
           (sampleCall 1 "" 0 (Some sampleArtifact)) sampleArtifact
           ["A"; "B"]%byte sampleFullStore).
  - reflexivity.
  - reflexivity.
  - apply not_elem_of_empty.
  - reflexivity.
  - simpl. lia.
Defined.

(** X14 at a line that holds the separator: a colour for the second part
    without a colour for the separator panics, both colours do not. *)
Lemma colorSplit_panics_witness :
  (colorSplit "a:b" ":" None None (Some id) false = None
   <-> strings.Contains "a:b" ":" = true
       /\ is_Some (Some (@id string))
       /\ @None (string -> string) = None)
  /\ (colorSplit "a:b" ":" None (Some id) (Some id) false = None
      <-> strings.Contains "a:b" ":" = true
          /\ is_Some (Some (@id string)) /\ Some (@id string) = None).
Proof.
  split.
  - apply (colorSplit_panics "a:b" ":" None None (Some id) false).
    discriminate.
  - apply (colorSplit_panics "a:b" ":" None (Some id) (Some id) false).
    discriminate.
Defined.

(** X15 at a line with two separators. *)
Lemma colorSplit_lossless_witness :
  exists s1 s2,
    colorSplit "a->b->c" "->" None None None false = Some (s1, s2)
    /\ s1 +:+ s2 = "a->b->c"
    /\ (strings.Contains "a->b->c" "->" = true ->
        strings.Contains s1 "->" = false
        /\ strings.HasPrefix s2 "->" = true).
Proof.
  apply (colorSplit_lossless "a->b->c" "->" None false). discriminate.
Defined.

(** X17 at a line of the help text, with colours off. *)
Lemma highlight_plain_witness :
  highlight sampleOutput "hash:set(string, string) -> bool // Set a value"
  = Some "hash:set(string, string) -> bool // Set a value".
Proof.
  apply (highlight_plain sampleOutput
           "hash:set(string, string) -> bool // Set a value");
    intros s; reflexivity.
Defined.

(** X18 at six positional arguments, the last one the index 7. *)
Lemma handleFlags_dbindex_not_applied_witness :
  REDIS_DB
    (handleFlags ["/www"; ":8080"; "c.pem"; "k.pem"; ":7000"; "7"]
       sampleConfig)
  = REDIS_DB sampleConfig.
Proof.
  apply (handleFlags_dbindex_not_applied
           ["/www"; ":8080"; "c.pem"; "k.pem"; ":7000"; "7"] sampleConfig
           "7" 7).
  - reflexivity.
  - reflexivity.
Defined.

(** X21 at five positional arguments, after no flags and after the flags
    [-dir /www -redis :7000]. *)
Lemma handleFlags_positional_over_flags_witness :
  handleFlags ["/srv"; ":8080"; "c.pem"; "k.pem"; ":6380"] sampleConfig
  = handleFlags ["/srv"; ":8080"; "c.pem"; "k.pem"; ":6380"] sampleFlagged
  /\ Some (SERVER_DIR
             (handleFlags ["/srv"; ":8080"; "c.pem"; "k.pem"; ":6380"]
                sampleConfig))
     = ["/srv"; ":8080"; "c.pem"; "k.pem"; ":6380"] !! 0%nat
  /\ Some (SERVER_ADDR
             (handleFlags ["/srv"; ":8080"; "c.pem"; "k.pem"; ":6380"]
                sampleConfig))
     = ["/srv"; ":8080"; "c.pem"; "k.pem"; ":6380"] !! 1%nat
  /\ Some (SERVER_CERT
             (handleFlags ["/srv"; ":8080"; "c.pem"; "k.pem"; ":6380"]
                sampleConfig))
     = ["/srv"; ":8080"; "c.pem"; "k.pem"; ":6380"] !! 2%nat
  /\ Some (SERVER_KEY
             (handleFlags ["/srv"; ":8080"; "c.pem"; "k.pem"; ":6380"]
                sampleConfig))
     = ["/srv"; ":8080"; "c.pem"; "k.pem"; ":6380"] !! 3%nat
  /\ Some (REDIS_ADDR
             (handleFlags ["/srv"; ":8080"; "c.pem"; "k.pem"; ":6380"]
                sampleConfig))
     = ["/srv"; ":8080"; "c.pem"; "k.pem"; ":6380"] !! 4%nat.
Proof.
  apply (handleFlags_positional_over_flags
           ["/srv"; ":8080"; "c.pem"; "k.pem"; ":6380"]
           sampleConfig sampleFlagged).
  - simpl. lia.
  - reflexivity.
  - reflexivity.
  - reflexivity.
  - reflexivity.
Defined.

(** X23 at a call without arguments. *)
Lemma constructor_needs_form_id_witness :
  UploadedFileConstructor sampleDescribe (sampleRequest None ["A"]%byte None)
    "/srv" sampleEmptyCall emptyWorld
  = (LuaRaise "form ID expected", emptyWorld).
Proof.
  apply (constructor_needs_form_id sampleDescribe
           (sampleRequest None ["A"]%byte None) "/srv" sampleEmptyCall
           emptyWorld).
  reflexivity.
Defined.

(** X22 at a userdata that holds another value, and at a string. *)
Lemma methods_need_self_witness :
  (uploadedfileName sampleForeignCall sampleStore
   = (LuaRaise "UploadedFile expected", sampleStore)
   /\ uploadedfileSize sampleForeignCall sampleStore
      = (LuaRaise "UploadedFile expected", sampleStore)
   /\ uploadedfileMimeType sampleForeignCall sampleStore
      = (LuaRaise "UploadedFile expected", sampleStore)
   /\ uploadedfileSave sampleDescribe sampleForeignCall sampleStore
      = (LuaRaise "UploadedFile expected", sampleStore)
   /\ uploadedfileSaveIn sampleDescribe sampleForeignCall sampleStore
      = (LuaRaise "UploadedFile expected", sampleStore))
  /\ (uploadedfileName (sampleCall 1 "" 0 None) sampleStore
      = (LuaRaise "userdata expected, got string", sampleStore)
      /\ uploadedfileSize (sampleCall 1 "" 0 None) sampleStore
         = (LuaRaise "userdata expected, got string", sampleStore)
      /\ uploadedfileMimeType (sampleCall 1 "" 0 None) sampleStore
         = (LuaRaise "userdata expected, got string", sampleStore)
      /\ uploadedfileSave sampleDescribe (sampleCall 1 "" 0 None)
           sampleStore
         = (LuaRaise "userdata expected, got string", sampleStore)
      /\ uploadedfileSaveIn sampleDescribe (sampleCall 1 "" 0 None)
           sampleStore
         = (LuaRaise "userdata expected, got string", sampleStore)).
Proof.
  split.
  - apply (methods_need_self sampleDescribe sampleForeignCall sampleStore).
    reflexivity.
  - apply (methods_need_self sampleDescribe (sampleCall 1 "" 0 None)
             sampleStore).
    reflexivity.
Defined.
